(** * PyDRP: fold partitioning, role assignment and dataset management

    A shallow embedding of [src/src.py] (classes [TargetPipeline],
    [Splitter], [DatasetManager], [LogMinMaxScaling], [MinMaxScaling]) and
    the properties of the specification that concern them.

    Python objects are records; an attribute that a constructor may leave
    unset is an [option] field.  Methods that mutate [self] return the new
    object.  Exceptions and the unbounded retry loop of [get_folds] are
    made explicit by the [result] type below. *)

From stdpp Require Import base decidable option list numbers strings gmap.
From Stdlib Require Import ZArith Lia.

(** ** Exceptions and results *)

Inductive exn :=
  | AssertionError (msg : string)
  | AttributeError (attr : string)
  | ValueError (msg : string)
  | KeyError
  | IndexError
  | NotImplementedError.

(** [OutOfFuel] is the answer of a loop that has not finished within the
    given number of iterations; a computation that answers [OutOfFuel] for
    every amount of fuel does not terminate. *)
Inductive result (A : Type) :=
  | Ok (a : A)
  | Raise (e : exn)
  | OutOfFuel.
Arguments Ok {A} a.
Arguments Raise {A} e.
Arguments OutOfFuel {A}.

(** Sequencing: the first exception (or exhaustion) ends the computation.
    With these instances stdpp's [x ← m; k] notation is available. *)
#[global] Instance result_bind : MBind result := fun A B f m =>
  match m with
  | Ok a => f a
  | Raise e => Raise e
  | OutOfFuel => OutOfFuel
  end.
#[global] Instance result_ret : MRet result := fun A a => Ok a.

(** [assert cond, msg] *)
Definition py_assert (cond : bool) (msg : string) : result unit :=
  if cond then Ok tt else Raise (AssertionError msg).

(** Reading an attribute that may never have been assigned. *)
Definition getattr {A} (name : string) (field : option A) : result A :=
  match field with
  | Some a => Ok a
  | None => Raise (AttributeError name)
  end.

Fixpoint mapM {A B} (f : A -> result B) (l : list A) : result (list B) :=
  match l with
  | [] => Ok []
  | x :: l' => y ← f x; ys ← mapM f l'; Ok (y :: ys)
  end.

(** A list comprehension [[x for x in l if cond(x)]] whose condition can
    raise. *)
Fixpoint filterM {A} (f : A -> result bool) (l : list A) : result (list A) :=
  match l with
  | [] => Ok []
  | x :: l' =>
      b ← f x; ys ← filterM f l'; Ok (if b : bool then x :: ys else ys)
  end.

(** ** The numpy and Python primitives the source calls *)

Module np.

(** [a[i]] for a sequence and an integer index: negative indices count
    from the end, anything outside [-len, len) raises. *)
Definition index {A} (a : list A) (i : Z) : result A :=
  let len := Z.of_nat (length a) in
  let j := if (i <? 0)%Z then (i + len)%Z else i in
  if (j <? 0)%Z then Raise IndexError
  else match a !! Z.to_nat j with
       | Some x => Ok x
       | None => Raise IndexError
       end.

(** [np.arange(k)]; empty for [k <= 0]. *)
Definition arange (k : Z) : list nat := seq 0 (Z.to_nat k).

(** [range(k)] *)
Definition range (k : Z) : list nat := seq 0 (Z.to_nat k).

(** [a[perm]]: indexing an array by an array of positions. *)
Definition take_indices {A} (a : list A) (perm : list nat) : result (list A) :=
  mapM (fun i => index a (Z.of_nat i)) perm.

(** [(a != b).all()] on two arrays of equal length. *)
Fixpoint all_ne (a b : list nat) : bool :=
  match a, b with
  | x :: a', y :: b' => negb (Nat.eqb x y) && all_ne a' b'
  | _, _ => true
  end.

(** [np.concatenate(arrays)]: refuses an empty list of arrays. *)
Definition concatenate {A} (arrays : list (list A)) : result (list A) :=
  match arrays with
  | [] => Raise (ValueError "need at least one array to concatenate")
  | _ => Ok (concat arrays)
  end.

(** [np.array_split(ary, Nsections)], after numpy's own definition:
    [Neach_section, extras = divmod(Ntotal, Nsections)],
    [section_sizes = [0] + extras * [Neach_section+1]
                         + (Nsections-extras) * [Neach_section]],
    [div_points = cumsum(section_sizes)], and section [i] is
    [ary[div_points[i] : div_points[i+1]]]. *)
Definition section_sizes (Ntotal Nsections : nat) : list nat :=
  let Neach_section := Ntotal / Nsections in
  let extras := Ntotal mod Nsections in
  0 :: replicate extras (S Neach_section)
    ++ replicate (Nsections - extras) Neach_section.

Fixpoint cumsum_from (acc : nat) (l : list nat) : list nat :=
  match l with
  | [] => []
  | x :: l' => (acc + x) :: cumsum_from (acc + x) l'
  end.

Definition cumsum : list nat -> list nat := cumsum_from 0.

(** [ary[st:en]], clipped to the array as Python slices are. *)
Definition slice {A} (ary : list A) (st en : nat) : list A :=
  take (en - st) (drop st ary).

Definition sections {A} (ary : list A) (div_points : list nat) (n : nat)
  : list (list A) :=
  (fun i => slice ary (nth i div_points 0) (nth (S i) div_points 0))
    <$> seq 0 n.

Definition array_split {A} (ary : list A) (Nsections : Z)
  : result (list (list A)) :=
  if (Nsections <=? 0)%Z
  then Raise (ValueError "number sections must be larger than 0.")
  else
    let n := Z.to_nat Nsections in
    let div_points := cumsum (section_sizes (length ary) n) in
    Ok (sections ary div_points n).

End np.

(** The pieces of an array of given sizes, from a given position on:
    what the sections of [np.array_split] amount to. *)
Fixpoint chunks {A} (ary : list A) (a : nat) (szs : list nat)
  : list (list A) :=
  match szs with
  | [] => []
  | s :: szs' => np.slice ary a (a + s) :: chunks ary (a + s) szs'
  end.

(** ** Random generators

    [np.random.default_rng(seed)] gives a generator, or raises when the
    seed is not one numpy accepts (a negative integer, a list holding a
    string that is not a number: [ValueError]); each call of
    [rng.permutation(n)] returns a permutation of [0, n) and advances the
    generator.  The bit stream itself is numpy's; all that the source
    relies on is that the draw is a permutation. *)
Class Generator (Seed G : Type) := {
  default_rng : Seed -> result G;
  permutation : G -> nat -> list nat * G;
  permutation_perm : ∀ g n, (permutation g n).1 ≡ₚ seq 0 n
}.

(** ** pandas: [Series.unique()] keeps the first occurrence of each value *)

Section unique.
Context {A : Type} `{EqDecision A}.

Fixpoint unique_from (seen l : list A) : list A :=
  match l with
  | [] => []
  | x :: l' =>
      if decide (x ∈ seen) then unique_from seen l'
      else x :: unique_from (x :: seen) l'
  end.

Definition unique (l : list A) : list A := unique_from [] l.

End unique.

(** ** Data frames *)

(** A frame is its rows in order, each with its index label. *)
Abbreviation DataFrame Row := (list (nat * Row)).

Section frames.
Context {Row : Type}.
Implicit Types (df : DataFrame Row).

(** [df.reset_index(drop=True)]: the labels become 0, 1, 2, ... *)
Definition reset_index df : DataFrame Row := imap (λ i p, (i, p.2)) df.

(** The row of label [i]; [df.loc[i]] raises [KeyError] without one. *)
Definition loc_label df (i : nat) : result (nat * Row) :=
  match list_find (λ p, p.1 = i) df with
  | Some (_, p) => Ok p
  | None => Raise KeyError
  end.

End frames.

(** ** class Splitter *)

(** An element is what is distributed over the folds: a row label when no
    partition column is set, a value of the partition column otherwise. *)
Inductive element (Val : Type) :=
  | Idx (i : nat)
  | Grp (v : Val).
Arguments Idx {Val} i.
Arguments Grp {Val} v.

#[global] Instance element_eq_dec {Val} `{EqDecision Val} :
  EqDecision (element Val).
Proof. solve_decision. Defined.

(** The values the source passes as [seed]: an integer, or (through
    [DatasetManager]) a list of elements. *)
Inductive pyseed (Val : Type) :=
  | SeedInt (z : Z)
  | SeedSeq (l : list (element Val)).
Arguments SeedInt {Val} z.
Arguments SeedSeq {Val} l.

(** A partition column is given by the function reading it off a row. *)
Record Splitter (Row Val : Type) := mkSplitter {
  partition_column : option (Row -> Val);
  k : Z;
  seed : pyseed Val;
  exclude_from_test : list (element Val);
  data : DataFrame Row;
  elements : list (element Val);
  partitioned : bool;
  (* attributes that [__init__] does not assign *)
  splits : option (list (list (element Val)));
  fitted : option bool;
  test_folds : option (list nat);
  val_folds : option (list nat)
}.
Arguments mkSplitter {Row Val}.
Arguments partition_column {Row Val} s.
Arguments k {Row Val} s.
Arguments seed {Row Val} s.
Arguments exclude_from_test {Row Val} s.
Arguments data {Row Val} s.
Arguments elements {Row Val} s.
Arguments partitioned {Row Val} s.
Arguments splits {Row Val} s.
Arguments fitted {Row Val} s.
Arguments test_folds {Row Val} s.
Arguments val_folds {Row Val} s.

Section Splitter_methods.
Context {Row Val : Type} `{EqDecision Val}.
Context {G : Type} `{!Generator (pyseed Val) G}.

Implicit Types (s : Splitter Row Val) (df : DataFrame Row).
Implicit Types (e : element Val) (idx : Z).

(** Defaults of [Splitter.__init__]. *)
Definition default_k : Z := 25.
Definition default_seed : pyseed Val := SeedInt 3558.
Definition default_exclude_from_test : list (element Val) := [].

(** The element a row stands for. *)
Definition row_element (pc : option (Row -> Val)) (p : nat * Row)
  : element Val :=
  match pc with
  | None => Idx p.1
  | Some col => Grp (col p.2)
  end.

Definition Splitter_init df (k : Z) (partition_column : option (Row -> Val))
    (seed : pyseed Val) (exclude_from_test : list (element Val))
  : Splitter Row Val :=
  let data := reset_index df in
  let elements :=
    match partition_column with
    | None => Idx <$> data.*1
    | Some col => Grp <$> unique ((λ p, col p.2) <$> data)
    end in
  {| partition_column := partition_column;
     k := k;
     seed := seed;
     exclude_from_test := exclude_from_test;
     data := data;
     elements := elements;
     partitioned := false;
     splits := None;
     fitted := None;
     test_folds := None;
     val_folds := None |}.

(** The three assignments that end [get_partitions]. *)
Definition with_partitions s (splits' : list (list (element Val)))
  : Splitter Row Val :=
  {| partition_column := partition_column s;
     k := k s;
     seed := seed s;
     exclude_from_test := exclude_from_test s;
     data := data s;
     elements := elements s;
     partitioned := true;
     splits := Some splits';
     fitted := Some true;
     test_folds := test_folds s;
     val_folds := val_folds s |}.

Definition get_partitions (shuffle : bool) s : result (Splitter Row Val) :=
  rng ← default_rng (seed s);
  elements' ←
    (if shuffle then
       let perm := (permutation rng (length (elements s))).1 in
       np.take_indices (elements s) perm
     else Ok (elements s));
  splits' ← np.array_split elements' (k s);
  Ok (with_partitions s splits').

(** The loop of [get_folds]: draw permutations of [0, k) until one
    differs from [test] at every position. *)
Fixpoint draw_until_valid (fuel : nat) (rng : G) (k : Z) (test : list nat)
  : result (list nat) :=
  match fuel with
  | 0 => OutOfFuel
  | S fuel' =>
      let '(val, rng') := permutation rng (Z.to_nat k) in
      if np.all_ne val test then Ok val
      else draw_until_valid fuel' rng' k test
  end.

(** The two assignments that end [get_folds]. *)
Definition with_folds s (test val : list nat) : Splitter Row Val :=
  {| partition_column := partition_column s;
     k := k s;
     seed := seed s;
     exclude_from_test := exclude_from_test s;
     data := data s;
     elements := elements s;
     partitioned := partitioned s;
     splits := splits s;
     fitted := fitted s;
     test_folds := Some test;
     val_folds := Some val |}.

Definition get_folds (fuel : nat) s : result (Splitter Row Val) :=
  _ ← py_assert (partitioned s) "The data was not partitioned yet";
  rng ← default_rng (seed s);
  let test := np.arange (k s) in
  val ← draw_until_valid fuel rng (k s) test;
  Ok (with_folds s test val).

Definition fit (fuel : nat) (shuffle : bool) s : result (Splitter Row Val) :=
  s' ← get_partitions shuffle s;
  get_folds fuel s'.

(** [self.data.loc[labels]] *)
Definition loc df (labels : list (element Val)) : result (DataFrame Row) :=
  mapM (λ e, match e with
             | Idx i => loc_label df i
             | Grp _ => Raise KeyError
             end) labels.

(** [self.data.query("<col> in @values")] *)
Definition query_in df (col : Row -> Val) (values : list (element Val))
  : DataFrame Row :=
  filter (λ p, Grp (col p.2) ∈ values) df.

(** [self.val_folds[idx]] and [self.test_folds[idx]] *)
Definition val_fold_of s idx : result nat :=
  folds ← getattr "val_folds" (val_folds s); np.index folds idx.
Definition test_fold_of s idx : result nat :=
  folds ← getattr "test_folds" (test_folds s); np.index folds idx.
(** [self.splits[f]] *)
Definition split_of s (f : nat) : result (list (element Val)) :=
  folds ← getattr "splits" (splits s); np.index folds (Z.of_nat f).

(** The [if]/[else] that ends [__getitem__]: the rows of the three
    lists of elements, by label or by the partition column. *)
Definition materialize s (training_idx val_idx test_idx : list (element Val))
  : result (DataFrame Row * DataFrame Row * DataFrame Row) :=
  match partition_column s with
  | None =>
      train ← loc (data s) training_idx;
      val ← loc (data s) val_idx;
      test ← loc (data s) test_idx;
      Ok (train, val, test)
  | Some col =>
      Ok (query_in (data s) col training_idx,
          query_in (data s) col val_idx,
          query_in (data s) col test_idx)
  end.

Definition getitem s idx
  : result (DataFrame Row * DataFrame Row * DataFrame Row) :=
  is_fitted ← getattr "fitted" (fitted s);
  _ ← py_assert is_fitted
        "You are trying to get splits before fitting the splitter";
  train_folds ←
    filterM (λ i, v ← val_fold_of s idx;
                  if negb (Nat.eqb i v)
                  then t ← test_fold_of s idx; Ok (negb (Nat.eqb i t))
                  else Ok false)
            (np.range (k s));
  arrays ← mapM (split_of s) train_folds;
  training_idx ← np.concatenate arrays;
  v ← val_fold_of s idx;
  val_idx ← split_of s v;
  t ← test_fold_of s idx;
  test_fold ← split_of s t;
  let test_idx := filter (λ el, el ∉ exclude_from_test s) test_fold in
  materialize s training_idx val_idx test_idx.

(** *** Notions used to state the properties *)

(** The [j]-th permutation of [0, n) that a generator draws. *)
Fixpoint nth_draw (rng : G) (n j : nat) : list nat :=
  match j with
  | 0 => (permutation rng n).1
  | S j' => nth_draw (permutation rng n).2 n j'
  end.

(** The same splitter with another exclusion list
    ([s.exclude_from_test = excl]). *)
Definition set_exclude_from_test (excl : list (element Val)) s
  : Splitter Row Val :=
  {| partition_column := partition_column s;
     k := k s;
     seed := seed s;
     exclude_from_test := excl;
     data := data s;
     elements := elements s;
     partitioned := partitioned s;
     splits := splits s;
     fitted := fitted s;
     test_folds := test_folds s;
     val_folds := val_folds s |}.

(** Whether fold [i] is a training fold when [v] is the validation fold
    and [t] the test fold. *)
Definition is_train_fold (v t i : nat) : bool :=
  negb (Nat.eqb i v) && negb (Nat.eqb i t).

(** The elements of the rows of a frame. *)
Definition frame_elements s (sub : DataFrame Row) : list (element Val) :=
  row_element (partition_column s) <$> sub.

(** One frame of [materialize]. *)
Definition select s (idxs : list (element Val)) : result (DataFrame Row) :=
  match partition_column s with
  | None => loc (data s) idxs
  | Some col => Ok (query_in (data s) col idxs)
  end.

(** What [__init__] and [fit] establish: [folds] are the splits and
    [val] the validation folds of a fitted splitter. *)
Record fitted_state s (folds : list (list (element Val))) (val : list nat)
  : Prop := {
  fs_k : (0 < k s)%Z;
  fs_labels : (data s).*1 = seq 0 (length (data s));
  fs_elements :
    elements s =
    match partition_column s with
    | None => Idx <$> (data s).*1
    | Some col => Grp <$> unique ((λ p, col p.2) <$> data s)
    end;
  fs_fitted : fitted s = Some true;
  fs_splits : splits s = Some folds;
  fs_folds_length : length folds = Z.to_nat (k s);
  fs_folds_perm : concat folds ≡ₚ elements s;
  fs_test : test_folds s = Some (seq 0 (Z.to_nat (k s)));
  fs_val : val_folds s = Some val;
  fs_val_perm : val ≡ₚ seq 0 (Z.to_nat (k s));
  fs_val_ne : ∀ i, val !! i ≠ Some i
}.

End Splitter_methods.


(** ** class TargetPipeline and its subclasses *)

(** A target pipeline is an object with a [fitted] attribute (if it was
    ever assigned), a [fit] method that returns the updated object, and
    [__call__].  [transform] is inherited by every subclass. *)
Class TargetPipeline (T Frame : Type) := {
  tp_fitted : T -> option bool;
  tp_fit : T -> Frame -> result T;
  tp_call : T -> Frame -> result Frame
}.

Definition transform {T Frame} `{!TargetPipeline T Frame} (self : T) (x : Frame)
  : result Frame :=
  is_fitted ← getattr "fitted" (tp_fitted self);
  _ ← py_assert is_fitted
        "You are trying to transform data using a non-fitted processor";
  tp_call self x.

(** The base class: [__init__] sets [fitted = False]; [fit] and
    [__call__] are to be overridden. *)
Record BaseTargetPipeline := { base_fitted : option bool }.

Definition TargetPipeline_init : BaseTargetPipeline :=
  {| base_fitted := Some false |}.

#[global] Instance BaseTargetPipeline_methods {Frame} :
  TargetPipeline BaseTargetPipeline Frame := {|
  tp_fitted := base_fitted;
  tp_fit := λ _ _, Raise NotImplementedError;
  tp_call := λ _ _, Raise NotImplementedError
|}.

(** What the scaling classes take from numpy and sklearn.  The arithmetic
    is floating point and stays abstract. *)
Class Scaling (Y Scaler : Type) := {
  np_log : Y -> Y;
  np_add : Y -> Y -> Y;
  MinMaxScaler : Y * Y -> Scaler;
  MinMaxScaler_fit : Scaler -> list Y -> result Scaler;
  MinMaxScaler_transform : Scaler -> list Y -> result (list Y)
}.

Section scalers.
Context {Row Y Scaler : Type} `{!Scaling Y Scaler}.
(** [x["Y"]] of a row, and the row with another [Y]. *)
Context (column_Y : Row -> Y) (assign_Y : Row -> Y -> Row).

(** [x.assign(Y = Y_t)] *)
Definition assign (x : DataFrame Row) (Y_t : list Y)
  : result (DataFrame Row) :=
  if decide (length Y_t = length x)
  then Ok (zip_with (λ p y, (p.1, assign_Y p.2 y)) x Y_t)
  else Raise (ValueError "Length of values does not match length of index").

(** [super(LogMinMaxScaling).__init__()] builds an unbound [super]
    object and initialises that object; [TargetPipeline.__init__]
    does not run on [self], so [self.fitted] stays unassigned. *)
Record LogMinMaxScaling := {
  lmm_fitted : option bool;
  lmm_offset : Y;
  lmm_minmax : Scaler
}.

Definition LogMinMaxScaling_init (offset : Y) (target_range : Y * Y)
  : LogMinMaxScaling :=
  {| lmm_fitted := None;
     lmm_offset := offset;
     lmm_minmax := MinMaxScaler target_range |}.

Definition LogMinMaxScaling_fit (self : LogMinMaxScaling) (x : DataFrame Row)
  : result LogMinMaxScaling :=
  minmax ← MinMaxScaler_fit (lmm_minmax self)
             ((λ p, np_log (np_add (column_Y p.2) (lmm_offset self))) <$> x);
  Ok {| lmm_fitted := Some true;
        lmm_offset := lmm_offset self;
        lmm_minmax := minmax |}.

Definition LogMinMaxScaling_call (self : LogMinMaxScaling) (x : DataFrame Row)
  : result (DataFrame Row) :=
  Y_t ← MinMaxScaler_transform (lmm_minmax self)
          ((λ p, np_log (np_add (column_Y p.2) (lmm_offset self))) <$> x);
  assign x Y_t.

#[export] Instance LogMinMaxScaling_methods :
  TargetPipeline LogMinMaxScaling (DataFrame Row) := {|
  tp_fitted := lmm_fitted;
  tp_fit := LogMinMaxScaling_fit;
  tp_call := LogMinMaxScaling_call
|}.

(** [MinMaxScaling.__init__] has the same call of [super]. *)
Record MinMaxScaling := {
  mm_fitted : option bool;
  mm_minmax : Scaler
}.

Definition MinMaxScaling_init (target_range : Y * Y) : MinMaxScaling :=
  {| mm_fitted := None; mm_minmax := MinMaxScaler target_range |}.

Definition MinMaxScaling_fit (self : MinMaxScaling) (x : DataFrame Row)
  : result MinMaxScaling :=
  minmax ← MinMaxScaler_fit (mm_minmax self) ((λ p, column_Y p.2) <$> x);
  Ok {| mm_fitted := Some true; mm_minmax := minmax |}.

Definition MinMaxScaling_call (self : MinMaxScaling) (x : DataFrame Row)
  : result (DataFrame Row) :=
  Y_t ← MinMaxScaler_transform (mm_minmax self) ((λ p, column_Y p.2) <$> x);
  assign x Y_t.

#[export] Instance MinMaxScaling_methods :
  TargetPipeline MinMaxScaling (DataFrame Row) := {|
  tp_fitted := mm_fitted;
  tp_fit := MinMaxScaling_fit;
  tp_call := MinMaxScaling_call
|}.

End scalers.

(** ** class DatasetManager *)

(** The collaborators: a preprocessing pipeline and a drug featurizer, by
    the methods the manager calls ([__str__] included).  The drugs table
    is indexed by drug identifier and has one column, the SMILES. *)
Record PreprocessingPipeline (Row Cells DrugId : Type) := {
  preprocess : result (DataFrame Row);
  ppl_get_cell_lines : result Cells;
  ppl_get_drugs : result (list (DrugId * string));
  ppl_str : string
}.
Arguments preprocess {Row Cells DrugId} _.
Arguments ppl_get_cell_lines {Row Cells DrugId} _.
Arguments ppl_get_drugs {Row Cells DrugId} _.
Arguments ppl_str {Row Cells DrugId} _.

Record DrugFeaturizer (DrugId Repr : Type) `{Countable DrugId} := {
  featurize : list string -> list DrugId -> result (gmap DrugId Repr);
  featurizer_str : result string
}.
Arguments featurize {DrugId Repr _ _} _ _ _.
Arguments featurizer_str {DrugId Repr _ _} _.

(** [warnings.warn(f"it was not possible to featurize {diff_drugs}",
    RuntimeWarning)]: the warning carries the set it prints. *)
Inductive py_warning (DrugId : Type) `{Countable DrugId} :=
  | RuntimeWarning_not_featurized (diff_drugs : gset DrugId).
Arguments RuntimeWarning_not_featurized {DrugId _ _} diff_drugs.

(** What [get_drugs] reads and writes outside the object: the files of
    [torch.load]/[torch.save] by path, and the warnings issued so far. *)
Record World (DrugId Repr : Type) `{Countable DrugId} := {
  files : gmap string (gmap DrugId Repr);
  warnings : list (py_warning DrugId)
}.
Arguments files {DrugId Repr _ _} _.
Arguments warnings {DrugId Repr _ _} _.

Record DatasetManager (Row Val Cells DrugId Repr T : Type)
    `{Countable DrugId} := {
  ppl : PreprocessingPipeline Row Cells DrugId;
  drug_featurizer : DrugFeaturizer DrugId Repr;
  processed_data : DataFrame Row;
  splitter : Splitter Row Val;
  target_processor : T
}.
Arguments ppl {Row Val Cells DrugId Repr T _ _} _.
Arguments drug_featurizer {Row Val Cells DrugId Repr T _ _} _.
Arguments processed_data {Row Val Cells DrugId Repr T _ _} _.
Arguments splitter {Row Val Cells DrugId Repr T _ _} _.
Arguments target_processor {Row Val Cells DrugId Repr T _ _} _.

Section DatasetManager_methods.
Context {Row Val Cells DrugId Repr T G : Type}.
Context `{EqDecision Val} `{Countable DrugId}.
Context `{!Generator (pyseed Val) G}.
Context `{!TargetPipeline T (DataFrame Row)}.

Implicit Types (self : DatasetManager Row Val Cells DrugId Repr T).

(** [Splitter(self.processed_data, k, partition_column, exclude_from_test)]
    passes four positional arguments: the fourth parameter of
    [Splitter.__init__] is [seed], and [exclude_from_test] keeps its
    default. *)
Definition DatasetManager_init (fuel : nat)
    (processing_pipeline : PreprocessingPipeline Row Cells DrugId)
    (target_processor : T)
    (drug_featurizer : DrugFeaturizer DrugId Repr)
    (k : Z) (partition_column : option (Row -> Val))
    (exclude_from_test : list (element Val))
  : result (DatasetManager Row Val Cells DrugId Repr T) :=
  processed_data ← preprocess processing_pipeline;
  let splitter :=
    Splitter_init processed_data k partition_column
      (SeedSeq exclude_from_test) default_exclude_from_test in
  splitter ← fit fuel true splitter;
  Ok {| ppl := processing_pipeline;
        drug_featurizer := drug_featurizer;
        processed_data := processed_data;
        splitter := splitter;
        target_processor := target_processor |}.

Definition get_data self : DataFrame Row := processed_data self.

(** [fit] updates the target processor, so the manager is returned
    along with the three frames. *)
Definition get_partition self (idx : Z)
  : result (DatasetManager Row Val Cells DrugId Repr T
            * (DataFrame Row * DataFrame Row * DataFrame Row)) :=
  '(train, val, test) ← getitem (splitter self) idx;
  processor ← tp_fit (target_processor self) train;
  a ← transform processor train;
  b ← transform processor test;
  c ← transform processor val;
  Ok ({| ppl := ppl self;
         drug_featurizer := drug_featurizer self;
         processed_data := processed_data self;
         splitter := splitter self;
         target_processor := processor |},
      (a, b, c)).

Definition get_cell_lines self : result Cells := ppl_get_cell_lines (ppl self).

Definition path_cache_of (ppl_s featurizer_s : string) : string :=
  "data/processed/" +:+ ppl_s +:+ "_" +:+ featurizer_s +:+ ".pt".

Definition get_drugs self (w : World DrugId Repr)
  : result (gmap DrugId Repr * World DrugId Repr) :=
  smiles ← ppl_get_drugs (ppl self);
  featurizer_s ← featurizer_str (drug_featurizer self);
  let path_cache := path_cache_of (ppl_str (ppl self)) featurizer_s in
  '(drug_dict, w1) ←
    match files w !! path_cache with
    | Some stored => Ok (stored, w)
    | None =>
        drug_dict ← featurize (drug_featurizer self) smiles.*2 smiles.*1;
        Ok (drug_dict,
            {| files := <[path_cache := drug_dict]> (files w);
               warnings := warnings w |})
    end;
  let featurized_drugs : gset DrugId := dom drug_dict in
  let input_drugs : gset DrugId := list_to_set smiles.*1 in
  let diff_drugs := featurized_drugs ∖ input_drugs in
  let w2 :=
    if decide (0 < size diff_drugs)
    then {| files := files w1;
            warnings := warnings w1
                        ++ [RuntimeWarning_not_featurized diff_drugs] |}
    else w1 in
  Ok (drug_dict, w2).

End DatasetManager_methods.

(** ** A small instance

    A generator, a table and the objects built from them, to run the
    definitions on.  The generator's state counts the draws; draw number
    [j] rotates [0, n) by [j] places.  Like numpy's it refuses a negative
    integer as seed; of the lists it takes those of row labels. *)
Module demo.

Definition is_label {Val} (e : element Val) : bool :=
  match e with Idx _ => true | Grp _ => false end.

Definition rng_state {Val} (sd : pyseed Val) : result nat :=
  match sd with
  | SeedInt z =>
      if (z <? 0)%Z then Raise (ValueError "expected non-negative integer")
      else Ok (Z.to_nat z)
  | SeedSeq l =>
      if forallb is_label l then Ok (length l)
      else Raise (ValueError "unrecognized seed string")
  end.

#[export] Instance rotating {Val} : Generator (pyseed Val) nat := {|
  default_rng := rng_state;
  permutation := λ g n, (rotate g (seq 0 n), S g);
  permutation_perm := λ g n,
    eq_ind_r (λ l, rotate g (seq 0 n) ≡ₚ l)
      (Permutation_app_comm _ _)
      (eq_sym (take_drop (g `mod` length (seq 0 n)) (seq 0 n)))
|}.

(** Rows [(CELL_ID, DRUG_ID, Y)]. *)
Definition row : Type := string * string * nat.
Definition CELL_ID (r : row) : string := r.1.1.
Definition column_Y (r : row) : nat := r.2.
Definition assign_Y (r : row) (y : nat) : row := (r.1, y).

Definition table : DataFrame row :=
  [(10, ("c0", "d0", 5)); (11, ("c0", "d1", 7));
   (12, ("c1", "d0", 3)); (13, ("c1", "d1", 8));
   (14, ("c2", "d0", 1)); (15, ("c2", "d1", 9));
   (16, ("c3", "d0", 4)); (17, ("c3", "d1", 6))].

(** Splitting by rows, row 2 kept out of test; and by cell line,
    [c1] kept out of test. *)
Definition by_row : Splitter row string :=
  Splitter_init table 3 None (SeedInt 3558) [Idx 2].
Definition by_cell : Splitter row string :=
  Splitter_init table 3 (Some CELL_ID) (SeedInt 3558) [Grp "c1"].

Definition or_self {A} (m : result A) (a : A) : A :=
  match m with Ok x => x | _ => a end.

Definition by_row_fitted : Splitter row string :=
  Eval vm_compute in or_self (fit 5 true by_row) by_row.
Definition by_cell_fitted : Splitter row string :=
  Eval vm_compute in or_self (fit 5 true by_cell) by_cell.

(** Run 0 of the rows, run 1 of the cell lines. *)
Definition by_row_run0 : DataFrame row * DataFrame row * DataFrame row :=
  Eval vm_compute in or_self (getitem by_row_fitted 0) ([], [], []).
Definition by_cell_run1 : DataFrame row * DataFrame row * DataFrame row :=
  Eval vm_compute in or_self (getitem by_cell_fitted 1) ([], [], []).

(** One fold and two folds. *)
Definition one_fold : Splitter row string :=
  Splitter_init table 1 None (SeedInt 3558) [].
Definition two_folds : Splitter row string :=
  Splitter_init table 2 None (SeedInt 3558) [].

(** A scaler on naturals standing in for sklearn's: fitting keeps the
    least value, transforming subtracts it. *)
#[export] Instance shift_scaling : Scaling nat (option nat) := {|
  np_log := λ y, y;
  np_add := Nat.add;
  MinMaxScaler := λ _, None;
  MinMaxScaler_fit := λ _ ys, Ok (Some (foldr Nat.min (hd 0 ys) ys));
  MinMaxScaler_transform := λ sc ys,
    match sc with
    | Some lo => Ok ((λ y, y - lo) <$> ys)
    | None => Raise (ValueError "This MinMaxScaler instance is not fitted yet")
    end
|}.

Definition drugs : list (string * string) :=
  [("d0", "CCO"); ("d1", "c1ccccc1")].

Definition pipeline : PreprocessingPipeline row unit string :=
  {| preprocess := Ok table;
     ppl_get_cell_lines := Ok tt;
     ppl_get_drugs := Ok drugs;
     ppl_str := "pipeline" |}.

(** A featurizer that cannot represent [d1]: it maps every other drug
    to the length of its SMILES. *)
Definition partial_featurizer : DrugFeaturizer string nat :=
  {| featurize := λ smiles_list ids,
       Ok (list_to_map
             (filter (λ kv, kv.1 ≠ "d1")
                (zip ids (String.length <$> smiles_list))));
     featurizer_str := Ok "lengths" |}.

Definition scaler : LogMinMaxScaling (Y := nat) (Scaler := option nat) :=
  LogMinMaxScaling_init 1 (0, 1).

#[export] Instance scaler_methods
  : TargetPipeline LogMinMaxScaling (DataFrame row) :=
  LogMinMaxScaling_methods column_Y assign_Y.

(** The manager that [DatasetManager(pipeline, scaler,
    partial_featurizer, 3, None, [2])] builds. *)
Definition manager_splitter : Splitter row string :=
  Eval vm_compute in
    or_self (fit 5 true (Splitter_init table 3 None (SeedSeq [Idx 2]) []))
      by_row.

Definition manager
  : DatasetManager row string unit string nat LogMinMaxScaling :=
  {| ppl := pipeline;
     drug_featurizer := partial_featurizer;
     processed_data := table;
     splitter := manager_splitter;
     target_processor := scaler |}.

Definition no_world : World string nat := {| files := ∅; warnings := [] |}.

(** A cache file left by an earlier run that also knew a drug [d9]. *)
Definition stale_world : World string nat :=
  {| files := {[ path_cache_of "pipeline" "lengths"
                 := {[ "d0" := 3; "d1" := 8; "d9" := 1 ]} ]};
     warnings := [] |}.

(** No fold, more folds than rows, and two folds fitted. *)
Definition no_fold : Splitter row string :=
  Splitter_init table 0 None (SeedInt 3558) [].
Definition ten_folds : Splitter row string :=
  Splitter_init table 10 None (SeedInt 3558) [].
Definition two_folds_fitted : Splitter row string :=
  Eval vm_compute in or_self (fit 5 true two_folds) two_folds.

(** The scaler fitted on the table, and a plain min-max scaler. *)
Definition scaler_fitted : LogMinMaxScaling (Y := nat) (Scaler := option nat) :=
  Eval vm_compute in or_self (LogMinMaxScaling_fit column_Y scaler table) scaler.
Definition plain_scaler : MinMaxScaling (Scaler := option nat) :=
  MinMaxScaling_init (Y := nat) (0, 1).
Definition plain_scaler_fitted : MinMaxScaling (Scaler := option nat) :=
  Eval vm_compute in
    or_self (MinMaxScaling_fit column_Y plain_scaler table) plain_scaler.

(** What the first call of [get_drugs] returns without a cache file. *)
Definition first_get_drugs : gmap string nat * World string nat :=
  Eval vm_compute in or_self (get_drugs manager no_world) (∅, no_world).

End demo.

(** * Properties *)

(** ** Facts about the primitives *)

Lemma bind_Ok {A B} (a : A) (f : A -> result B) : Ok a ≫= f = f a.
Proof. done. Qed.

Section primitives.
Context {A : Type}.
Implicit Types (l ary : list A) (szs : list nat).

Lemma mapM_Ok {B} (f : A -> result B) (g : A -> B) l :
  (∀ x, x ∈ l -> f x = Ok (g x)) -> mapM f l = Ok (g <$> l).
Proof.
  induction l as [|x l IH]; intros Hf; simpl; [done|].
  rewrite Hf by left. simpl. rewrite IH; [done|].
  intros y Hy. apply Hf. by right.
Qed.

Lemma filterM_Ok (f : A -> result bool) (g : A -> bool) l :
  (∀ x, x ∈ l -> f x = Ok (g x)) ->
  filterM f l = Ok (filter (λ x, g x = true) l).
Proof.
  induction l as [|x l IH]; intros Hf; simpl; [done|].
  rewrite Hf by left. simpl. rewrite IH.
  - simpl. rewrite filter_cons. destruct (g x); by case_decide.
  - intros y Hy. apply Hf. by right.
Qed.

Lemma index_nat_Ok l (i : nat) x :
  l !! i = Some x -> np.index l (Z.of_nat i) = Ok x.
Proof.
  intros Hl. unfold np.index.
  destruct (Z.ltb_spec (Z.of_nat i) 0); [lia|].
  destruct (Z.ltb_spec (Z.of_nat i) 0); [lia|].
  by rewrite Nat2Z.id, Hl.
Qed.

Lemma index_Ok_inv l (i : Z) x :
  (0 <= i)%Z -> np.index l i = Ok x -> l !! Z.to_nat i = Some x.
Proof.
  intros Hi. unfold np.index.
  destruct (Z.ltb_spec i 0); [lia|].
  destruct (Z.ltb_spec i 0); [lia|].
  destruct (l !! Z.to_nat i); [|done]. by intros [= ->].
Qed.

Lemma index_in_range l (i : Z) :
  (0 <= i < Z.of_nat (length l))%Z -> ∃ x, np.index l i = Ok x.
Proof.
  intros Hi.
  destruct (lookup_lt_is_Some_2 l (Z.to_nat i)) as [x Hx]; [lia|].
  exists x. rewrite <- (Z2Nat.id i) by lia. by apply index_nat_Ok.
Qed.

End primitives.

(** ** [np.array_split] cuts an array into consecutive pieces *)

Section array_split.
Context {A : Type}.
Implicit Types (ary : list A) (szs dp : list nat).

Lemma sections_cons ary a dp n :
  np.sections ary (a :: dp) (S n)
  = np.slice ary a (nth 0 dp 0) :: np.sections ary dp n.
Proof.
  unfold np.sections. simpl. f_equal.
  by rewrite <- fmap_S_seq, <- list_fmap_compose.
Qed.

Lemma sections_chunks ary a szs :
  np.sections ary (a :: np.cumsum_from a szs) (length szs) = chunks ary a szs.
Proof.
  revert a. induction szs as [|s szs IH]; intros a; [done|].
  simpl length. rewrite sections_cons. simpl. f_equal. apply IH.
Qed.

Lemma chunks_length ary a szs : length (chunks ary a szs) = length szs.
Proof. revert a. induction szs; intros; simpl; auto. Qed.

Lemma concat_chunks ary a szs :
  concat (chunks ary a szs) = take (sum_list szs) (drop a ary).
Proof.
  revert a. induction szs as [|s szs IH]; intros a; simpl; [done|].
  rewrite IH. unfold np.slice.
  replace (a + s - a) with s by lia.
  rewrite <- (take_take_drop (drop a ary) s (sum_list szs)).
  by rewrite drop_drop.
Qed.

Lemma chunks_lookup_length ary a szs i s :
  a + sum_list szs <= length ary ->
  szs !! i = Some s ->
  length <$> chunks ary a szs !! i = Some s.
Proof.
  revert a i. induction szs as [|s0 szs IH]; intros a i Hlen Hi; [done|].
  simpl in Hlen. destruct i as [|i]; simpl in *.
  - injection Hi as ->. f_equal. unfold np.slice.
    rewrite length_take, length_drop. lia.
  - apply IH; [lia|done].
Qed.

Lemma sum_list_append (l1 l2 : list nat) :
  sum_list (l1 ++ l2) = sum_list l1 + sum_list l2.
Proof. induction l1; simpl; lia. Qed.

Lemma section_sizes_sum Ntotal n :
  0 < n ->
  sum_list (replicate (Ntotal mod n) (S (Ntotal / n))
            ++ replicate (n - Ntotal mod n) (Ntotal / n)) = Ntotal.
Proof.
  intros Hn. rewrite sum_list_append, !sum_list_replicate.
  pose proof (Nat.mod_upper_bound Ntotal n ltac:(lia)) as Hlt.
  pose proof (Nat.div_mod_eq Ntotal n) as Heq.
  nia.
Qed.

Lemma section_sizes_lookup Ntotal n i :
  i < n ->
  (replicate (Ntotal mod n) (S (Ntotal / n))
   ++ replicate (n - Ntotal mod n) (Ntotal / n)) !! i
  = Some (Ntotal / n + (if i <? Ntotal mod n then 1 else 0)).
Proof.
  intros Hi.
  pose proof (Nat.mod_upper_bound Ntotal n ltac:(lia)) as Hlt.
  destruct (Nat.ltb_spec i (Ntotal mod n)).
  - rewrite lookup_app_l by (rewrite length_replicate; lia).
    rewrite lookup_replicate_2 by lia. f_equal. lia.
  - rewrite lookup_app_r by (rewrite length_replicate; lia).
    rewrite length_replicate, lookup_replicate_2 by lia. f_equal. lia.
Qed.

(** What [np.array_split] returns for a positive number of sections:
    that many consecutive pieces, which put back together give the
    array, the first [len mod n] of them one longer than the others. *)
Lemma array_split_spec ary (k : Z) :
  (0 < k)%Z ->
  ∃ folds,
    np.array_split ary k = Ok folds ∧
    length folds = Z.to_nat k ∧
    concat folds = ary ∧
    ∀ i, i < Z.to_nat k ->
      length <$> folds !! i
      = Some (length ary / Z.to_nat k
              + (if i <? length ary mod Z.to_nat k then 1 else 0)).
Proof.
  intros Hk. unfold np.array_split.
  destruct (Z.leb_spec k 0); [lia|].
  set (n := Z.to_nat k). assert (0 < n) as Hn by lia.
  set (szs := replicate (length ary mod n) (S (length ary / n))
              ++ replicate (n - length ary mod n) (length ary / n)).
  assert (length szs = n) as Hszs.
  { unfold szs. rewrite length_app, !length_replicate.
    pose proof (Nat.mod_upper_bound (length ary) n ltac:(lia)). lia. }
  assert (np.cumsum (np.section_sizes (length ary) n)
          = 0 :: np.cumsum_from 0 szs) as ->.
  { unfold np.cumsum, np.section_sizes. simpl. done. }
  assert (np.sections ary (0 :: np.cumsum_from 0 szs) n = chunks ary 0 szs)
    as -> by (rewrite <- Hszs; apply sections_chunks).
  eexists. split; [done|]. split; [|split].
  - by rewrite chunks_length.
  - rewrite concat_chunks. unfold szs. rewrite section_sizes_sum by done.
    rewrite drop_0. by rewrite firstn_all.
  - intros i Hi. apply chunks_lookup_length.
    + unfold szs. rewrite section_sizes_sum by done. lia.
    + by apply section_sizes_lookup.
Qed.

Lemma array_split_nonpositive ary (k : Z) :
  (k <= 0)%Z ->
  np.array_split ary k
  = Raise (ValueError "number sections must be larger than 0.").
Proof. intros Hk. unfold np.array_split. by destruct (Z.leb_spec k 0); [|lia]. Qed.

End array_split.

(** ** [unique] lists every value once *)

Section unique_facts.
Context {A : Type} `{EqDecision A}.

Lemma elem_of_unique_from (seen l : list A) x :
  x ∈ unique_from seen l ↔ x ∈ l ∧ x ∉ seen.
Proof.
  revert seen. induction l as [|y l IH]; intros seen; simpl.
  - rewrite elem_of_nil. tauto.
  - case_decide as Hy.
    + rewrite IH, elem_of_cons. split; [tauto|].
      intros [[->|?] ?]; tauto.
    + rewrite elem_of_cons, IH, !elem_of_cons.
      destruct (decide (x = y)) as [->|]; tauto.
Qed.

Lemma NoDup_unique_from (seen l : list A) : NoDup (unique_from seen l).
Proof.
  revert seen. induction l as [|y l IH]; intros seen; simpl.
  - constructor.
  - case_decide; [apply IH|]. constructor; [|apply IH].
    rewrite elem_of_unique_from, elem_of_cons. tauto.
Qed.

Lemma elem_of_unique (l : list A) x : x ∈ unique l ↔ x ∈ l.
Proof.
  unfold unique. rewrite elem_of_unique_from, elem_of_nil. tauto.
Qed.

Lemma NoDup_unique (l : list A) : NoDup (unique l).
Proof. apply NoDup_unique_from. Qed.

End unique_facts.

(** ** Frames with fresh labels *)

Section frame_facts.
Context {Row : Type}.
Implicit Types (df : DataFrame Row).

Lemma reset_index_lookup df i p :
  reset_index df !! i = Some p -> p.1 = i.
Proof.
  unfold reset_index. rewrite list_lookup_imap.
  destruct (df !! i); simpl; [|done]. by intros [= <-].
Qed.

Lemma imap_labels (f : nat -> nat) df :
  (imap (λ i p, (f i, p.2)) df).*1 = f <$> seq 0 (length df).
Proof.
  revert f. induction df as [|p df IH]; intros f; [done|].
  simpl. f_equal.
  rewrite <- fmap_S_seq, <- list_fmap_compose. apply (IH (f ∘ S)).
Qed.

Lemma reset_index_labels df : (reset_index df).*1 = seq 0 (length df).
Proof.
  unfold reset_index. rewrite (imap_labels id). apply list_fmap_id.
Qed.

Lemma reset_index_length df : length (reset_index df) = length df.
Proof. apply length_imap. Qed.

End frame_facts.

(** ** Facts about [mapM] *)

Section mapM_facts.
Context {A B : Type}.
Implicit Types (l : list A).

Lemma mapM_cons_Ok (f : A -> result B) x l r :
  mapM f (x :: l) = Ok r ->
  ∃ y ys, f x = Ok y ∧ mapM f l = Ok ys ∧ r = y :: ys.
Proof.
  simpl. destruct (f x) as [y| |]; simpl; [|done..].
  destruct (mapM f l) as [ys| |]; simpl; [|done..].
  intros [= <-]. eauto.
Qed.

Lemma mapM_elem_of (f : A -> result B) l r y :
  mapM f l = Ok r -> y ∈ r ↔ ∃ x, x ∈ l ∧ f x = Ok y.
Proof.
  revert r. induction l as [|x l IH]; intros r Hr.
  - injection Hr as <-. rewrite elem_of_nil. split; [done|].
    intros (x & Hx & _). by apply elem_of_nil in Hx.
  - apply mapM_cons_Ok in Hr as (y0 & ys & Hx & Hl & ->).
    rewrite elem_of_cons, (IH _ Hl). split.
    + intros [->|(x' & Hx' & Hf)]; [exists x|exists x'];
        rewrite elem_of_cons; eauto.
    + intros (x' & [->|Hx']%elem_of_cons & Hf); [left|right; eauto].
      congruence.
Qed.

Lemma mapM_total (f : A -> result B) l :
  (∀ x, x ∈ l -> ∃ y, f x = Ok y) -> ∃ r, mapM f l = Ok r.
Proof.
  induction l as [|x l IH]; intros Hf; simpl; [eauto|].
  destruct (Hf x) as [y ->]; [by left|].
  destruct IH as [r ->]; [|simpl; eauto].
  intros x' Hx'. apply Hf. by right.
Qed.

(** Reading a list through a permutation of its positions permutes it. *)
Lemma mapM_Permutation (f : A -> result B) l1 l2 r2 :
  l1 ≡ₚ l2 -> mapM f l2 = Ok r2 -> ∃ r1, mapM f l1 = Ok r1 ∧ r1 ≡ₚ r2.
Proof.
  intros Hp. revert r2.
  induction Hp as [|x l1 l2 Hp IH|x y l|l1 l2 l3 Hp1 IH1 Hp2 IH2];
    intros r2 Hr2.
  - exists []. by injection Hr2 as <-.
  - apply mapM_cons_Ok in Hr2 as (y & ys & Hx & Hl & ->).
    destruct (IH _ Hl) as (r1 & Hr1 & Hperm).
    exists (y :: r1). simpl. rewrite Hx, Hr1. simpl.
    split; [done|]. by constructor.
  - apply mapM_cons_Ok in Hr2 as (x' & ys & Hx & Hl & ->).
    apply mapM_cons_Ok in Hl as (y' & zs & Hy & Hl & ->).
    exists (y' :: x' :: zs). simpl. rewrite Hy, Hx, Hl. simpl.
    split; [done|]. apply perm_swap.
  - destruct (IH2 _ Hr2) as (rm & Hrm & Hperm2).
    destruct (IH1 _ Hrm) as (r1 & Hr1 & Hperm1).
    exists r1. split; [done|]. by etrans.
Qed.

End mapM_facts.

(** ** Lists of folds *)

Section list_facts.
Context {A : Type}.
Implicit Types (l : list A) (ls : list (list A)).

Lemma elem_of_concat ls x :
  x ∈ concat ls ↔ ∃ i a, ls !! i = Some a ∧ x ∈ a.
Proof.
  induction ls as [|l ls IH]; simpl.
  - rewrite elem_of_nil. split; [done|]. by intros (i & a & Hi & _).
  - rewrite elem_of_app, IH. split.
    + intros [Hx|(i & a & Hi & Ha)]; [by exists 0, l|by exists (S i), a].
    + intros ([|i] & a & Hi & Ha); simpl in Hi.
      * injection Hi as ->. by left.
      * right. eauto.
Qed.

Lemma elem_of_concat_fmap {B} (h : B -> list A) (l : list B) x :
  x ∈ concat (h <$> l) ↔ ∃ y, y ∈ l ∧ x ∈ h y.
Proof.
  induction l as [|y l IH]; simpl.
  - rewrite elem_of_nil. split; [done|].
    intros (y & Hy & _). by apply elem_of_nil in Hy.
  - rewrite elem_of_app, IH. split.
    + intros [Hx|(y' & Hy' & Hx)]; [exists y|exists y'];
        rewrite elem_of_cons; eauto.
    + intros (y' & [->|Hy']%elem_of_cons & Hx); eauto.
Qed.

(** Without repetition in the concatenation, an element lies in one
    fold only. *)
Lemma NoDup_concat_inj ls i j a b x :
  NoDup (concat ls) ->
  ls !! i = Some a -> ls !! j = Some b -> x ∈ a -> x ∈ b -> i = j.
Proof.
  revert i j. induction ls as [|l ls IH]; intros i j Hnd Hi Hj Ha Hb.
  { by rewrite lookup_nil in Hi. }
  simpl in Hnd. apply NoDup_app in Hnd as (_ & Hdisj & Hnd).
  destruct i as [|i], j as [|j]; simpl in *; simplify_eq; [done|..].
  - exfalso. apply (Hdisj x Ha). apply elem_of_concat. eauto.
  - exfalso. apply (Hdisj x Hb). apply elem_of_concat. eauto.
  - f_equal. eauto.
Qed.

Lemma take_indices_seq pre l :
  mapM (λ i, np.index (pre ++ l) (Z.of_nat i)) (seq (length pre) (length l))
  = Ok l.
Proof.
  revert pre. induction l as [|x l IH]; intros pre; [done|].
  simpl. rewrite (index_nat_Ok _ _ x) by (by apply list_lookup_middle).
  simpl. specialize (IH (pre ++ [x])).
  rewrite length_app, <- app_assoc in IH. simpl in IH.
  rewrite Nat.add_1_r in IH. by rewrite IH.
Qed.

Lemma take_indices_perm l perm :
  perm ≡ₚ seq 0 (length l) ->
  ∃ l', np.take_indices l perm = Ok l' ∧ l' ≡ₚ l.
Proof.
  intros Hp. unfold np.take_indices.
  eapply mapM_Permutation; [done|]. apply (take_indices_seq []).
Qed.

End list_facts.

(** ** [(val != test).all()] *)

Lemma all_ne_true a b :
  np.all_ne a b = true ↔
  ∀ i x, a !! i = Some x -> b !! i = Some x -> False.
Proof.
  revert b. induction a as [|x a IH]; intros [|y b]; simpl;
    try (split; [intros _ i z; by rewrite ?lookup_nil|done]).
  rewrite andb_true_iff, negb_true_iff, Nat.eqb_neq, IH. split.
  - intros [Hxy Hab] [|i] z; simpl; [congruence|apply Hab].
  - intros Hall. split.
    + intros ->. by apply (Hall 0 y).
    + intros i z. apply (Hall (S i) z).
Qed.

(** Against the identity [0, 1, ..., n-1]: no fixed point. *)
Lemma all_ne_seq_true val n :
  length val = n ->
  np.all_ne val (seq 0 n) = true ↔ ∀ i, val !! i ≠ Some i.
Proof.
  intros Hlen. rewrite all_ne_true. split.
  - intros Hall i Hi. apply (Hall i i Hi).
    apply lookup_seq. split; [done|]. apply lookup_lt_Some in Hi. lia.
  - intros Hall i x Hx [-> _]%lookup_seq. by apply (Hall i).
Qed.

(** ** Fitting a splitter *)

Section Splitter_facts.
Context {Row Val : Type} `{EqDecision Val}.
Context {G : Type} `{!Generator (pyseed Val) G}.

Implicit Types (s : Splitter Row Val) (df : DataFrame Row).
Implicit Types (e : element Val) (idx : Z) (p : nat * Row).
Implicit Types (folds : list (list (element Val))) (val : list nat).
Implicit Types (pc : option (Row -> Val)) (sd : pyseed Val).
Implicit Types (excl idxs : list (element Val)).

Lemma nth_draw_perm (rng : G) n j : nth_draw rng n j ≡ₚ seq 0 n.
Proof.
  revert rng. induction j as [|j IH]; intros rng; simpl;
    [apply permutation_perm|apply IH].
Qed.

Lemma nth_draw_length (rng : G) n j : length (nth_draw rng n j) = n.
Proof. rewrite (nth_draw_perm rng n j). apply length_seq. Qed.

(** A result of the loop is one of the draws, and a valid one. *)
Lemma draw_until_valid_Ok fuel (rng : G) (k : Z) test val :
  draw_until_valid fuel rng k test = Ok val ->
  ∃ j, j < fuel ∧ val = nth_draw rng (Z.to_nat k) j
       ∧ np.all_ne val test = true.
Proof.
  revert rng. induction fuel as [|fuel IH]; intros rng; simpl; [done|].
  destruct (permutation rng (Z.to_nat k)) as [val0 rng'] eqn:Hdraw.
  destruct (np.all_ne val0 test) eqn:Hne.
  - intros [= <-]. exists 0. simpl. rewrite Hdraw. split; [lia|done].
  - intros (j & Hj & -> & Hv)%IH. exists (S j). simpl. rewrite Hdraw.
    split; [lia|done].
Qed.

(** Once some draw is valid, enough fuel finds a valid draw. *)
Lemma draw_until_valid_enough (rng : G) (k : Z) test j :
  np.all_ne (nth_draw rng (Z.to_nat k) j) test = true ->
  ∃ val, draw_until_valid (S j) rng k test = Ok val.
Proof.
  revert rng. induction j as [|j IH]; intros rng; simpl.
  - destruct (permutation rng (Z.to_nat k)) as [val0 rng']. simpl.
    intros ->. eauto.
  - destruct (permutation rng (Z.to_nat k)) as [val0 rng'] eqn:Hdraw.
    simpl. intros Hj. destruct (np.all_ne val0 test); [eauto|].
    apply IH in Hj. simpl in Hj. done.
Qed.

(** When no draw is ever valid the loop does not end. *)
Lemma draw_until_valid_never fuel (rng : G) (k : Z) test :
  (∀ j, np.all_ne (nth_draw rng (Z.to_nat k) j) test = false) ->
  draw_until_valid fuel rng k test = OutOfFuel.
Proof.
  revert rng. induction fuel as [|fuel IH]; intros rng Hall; simpl; [done|].
  destruct (permutation rng (Z.to_nat k)) as [val0 rng'] eqn:Hdraw.
  pose proof (Hall 0) as H0. simpl in H0. rewrite Hdraw in H0.
  simpl in H0. rewrite H0. apply IH. intros j.
  specialize (Hall (S j)). simpl in Hall. by rewrite Hdraw in Hall.
Qed.



(** [get_partitions] raises what [default_rng] raises. *)
Lemma get_partitions_bad_seed shuffle s (err : exn) :
  default_rng (seed s) = Raise err -> get_partitions shuffle s = Raise err.
Proof. intros Hrng. unfold get_partitions. by rewrite Hrng. Qed.

Lemma get_partitions_Ok_seed shuffle s s' :
  get_partitions shuffle s = Ok s' -> ∃ rng, default_rng (seed s) = Ok rng.
Proof.
  unfold get_partitions. destruct (default_rng (seed s)); [eauto|done..].
Qed.

(** [get_partitions] on a seed that is accepted and a positive fold
    count. *)
Lemma get_partitions_spec shuffle s (rng : G) :
  default_rng (seed s) = Ok rng ->
  (0 < k s)%Z ->
  ∃ folds,
    get_partitions shuffle s = Ok (with_partitions s folds) ∧
    length folds = Z.to_nat (k s) ∧
    concat folds ≡ₚ elements s ∧
    ∀ i, i < Z.to_nat (k s) ->
      length <$> folds !! i
      = Some (length (elements s) / Z.to_nat (k s)
              + (if i <? length (elements s) mod Z.to_nat (k s)
                 then 1 else 0)).
Proof.
  intros Hrng Hk. unfold get_partitions. rewrite Hrng, bind_Ok.
  assert (∃ els, (if shuffle
                  then np.take_indices (elements s)
                         (permutation rng (length (elements s))).1
                  else Ok (elements s)) = Ok els ∧ els ≡ₚ elements s)
    as (els & -> & Hels).
  { destruct shuffle; [|by eauto].
    apply take_indices_perm, permutation_perm. }
  simpl.
  destruct (array_split_spec els (k s) Hk) as (folds & -> & Hlen & Hcat & Hsz).
  exists folds. simpl. split; [done|]. split; [done|].
  split; [by rewrite Hcat|].
  intros i Hi. rewrite (Hsz i Hi). by rewrite Hels.
Qed.

Lemma get_partitions_nonpositive shuffle s (rng : G) :
  default_rng (seed s) = Ok rng ->
  (k s <= 0)%Z ->
  get_partitions shuffle s
  = Raise (ValueError "number sections must be larger than 0.").
Proof.
  intros Hrng Hk. unfold get_partitions. rewrite Hrng, bind_Ok.
  destruct shuffle.
  - destruct (take_indices_perm (elements s)
                (permutation rng (length (elements s))).1)
      as (els & -> & _); [apply permutation_perm|].
    simpl. by rewrite array_split_nonpositive.
  - simpl. by rewrite array_split_nonpositive.
Qed.

(** [get_partitions] returns only for a positive fold count. *)
Lemma get_partitions_Ok_positive shuffle s s' :
  get_partitions shuffle s = Ok s' -> (0 < k s)%Z.
Proof.
  intros Hs. destruct (get_partitions_Ok_seed _ _ _ Hs) as [rng Hrng].
  destruct (Z.leb_spec (k s) 0) as [Hk|Hk]; [|done].
  by rewrite (get_partitions_nonpositive shuffle s rng Hrng Hk) in Hs.
Qed.

(** The elements of a new splitter are pairwise different. *)
Lemma Splitter_init_NoDup df (k : Z) pc sd excl :
  NoDup (elements (Splitter_init df k pc sd excl)).
Proof.
  simpl. destruct pc as [col|].
  - apply NoDup_fmap_2; [by intros ?? [=]|]. apply NoDup_unique.
  - apply NoDup_fmap_2; [by intros ?? [=]|].
    rewrite reset_index_labels. apply NoDup_seq.
Qed.

(** [fit] returns only in a fitted state. *)
Lemma fit_fitted_state df (k : Z) pc sd excl fuel shuffle s :
  fit fuel shuffle (Splitter_init df k pc sd excl) = Ok s ->
  ∃ folds val,
    fitted_state s folds val ∧
    s = with_folds
          (with_partitions (Splitter_init df k pc sd excl) folds)
          (seq 0 (Z.to_nat k)) val.
Proof.
  unfold fit. set (s0 := Splitter_init df k pc sd excl).
  destruct (get_partitions shuffle s0) as [s1| |] eqn:Hs1; simpl; [|done..].
  destruct (get_partitions_Ok_seed _ _ _ Hs1) as [rng Hrng].
  pose proof (get_partitions_Ok_positive _ _ _ Hs1) as Hk.
  destruct (get_partitions_spec shuffle s0 rng Hrng Hk)
    as (folds & Hs1' & Hlen & Hperm & _).
  rewrite Hs1' in Hs1. injection Hs1 as <-.
  unfold get_folds. simpl. simpl in Hrng. rewrite Hrng, bind_Ok.
  destruct (draw_until_valid fuel rng k (np.arange k))
    as [val| |] eqn:Hdraw; simpl; [|done..].
  intros [= <-]. exists folds, val. split; [|done].
  apply draw_until_valid_Ok in Hdraw as (j & _ & Hval & Hne).
  assert (length val = Z.to_nat k) as Hvlen
    by (rewrite Hval; apply nth_draw_length).
  subst s0. constructor; simpl; try done.
  - by rewrite reset_index_labels, reset_index_length.
  - rewrite Hval. apply nth_draw_perm.
  - by apply (all_ne_seq_true val (Z.to_nat k)).
Qed.

(** *** Rows and their elements *)

Lemma NoDup_fst_inj df p q :
  NoDup df.*1 -> p ∈ df -> q ∈ df -> p.1 = q.1 -> p = q.
Proof.
  intros Hnd [i Hi]%list_elem_of_lookup [j Hj]%list_elem_of_lookup Hpq.
  assert (i = j) as ->; [|congruence].
  apply (NoDup_lookup (df.*1) i j p.1); [done|..];
    rewrite list_lookup_fmap; [by rewrite Hi|by rewrite Hj, Hpq].
Qed.

Lemma loc_label_spec df i p :
  NoDup df.*1 -> loc_label df i = Ok p ↔ p ∈ df ∧ p.1 = i.
Proof.
  intros Hnd. unfold loc_label.
  destruct (list_find (λ p0, p0.1 = i) df) as [[j q]|] eqn:Hfind.
  - apply list_find_Some in Hfind as (Hj & Hq & _).
    apply list_elem_of_lookup_2 in Hj. split.
    + by intros [= <-].
    + intros [Hp Hpi]. f_equal. apply (NoDup_fst_inj df); congruence.
  - split; [done|]. intros [Hp Hpi].
    apply list_find_None in Hfind. rewrite Forall_forall in Hfind.
    by destruct (Hfind p Hp).
Qed.

Lemma loc_spec df idxs :
  NoDup df.*1 ->
  (∀ e, e ∈ idxs -> ∃ i, e = Idx i ∧ i ∈ df.*1) ->
  ∃ sub, loc df idxs = Ok sub ∧ ∀ p, p ∈ sub ↔ p ∈ df ∧ Idx p.1 ∈ idxs.
Proof.
  intros Hnd Hidx. unfold loc.
  edestruct (mapM_total (λ e, match e with
                              | Idx i => loc_label df i
                              | Grp _ => Raise KeyError
                              end) idxs) as [sub Hsub].
  { intros e (i & -> & Hi)%Hidx.
    apply list_elem_of_fmap in Hi as (p & -> & Hp).
    exists p. by apply loc_label_spec. }
  exists sub. split; [done|]. intros p.
  rewrite (mapM_elem_of _ _ _ _ Hsub). split.
  - intros ([i|v] & He & Hf); [|done].
    apply loc_label_spec in Hf as [Hp <-]; done.
  - intros [Hp He]. exists (Idx p.1). split; [done|].
    by apply loc_label_spec.
Qed.

Section fitted.
Context s folds val (Hfit : fitted_state s folds val).

Lemma fitted_labels_NoDup : NoDup (data s).*1.
Proof. rewrite (fs_labels _ _ _ Hfit). apply NoDup_seq. Qed.

Lemma fitted_elements_NoDup : NoDup (elements s).
Proof.
  rewrite (fs_elements _ _ _ Hfit). destruct (partition_column s).
  - apply NoDup_fmap_2; [by intros ?? [=]|]. apply NoDup_unique.
  - apply NoDup_fmap_2; [by intros ?? [=]|]. apply fitted_labels_NoDup.
Qed.

(** The elements are exactly the elements of the rows. *)
Lemma elem_of_elements e :
  e ∈ elements s ↔
  ∃ p, p ∈ data s ∧ row_element (partition_column s) p = e.
Proof.
  rewrite (fs_elements _ _ _ Hfit). unfold row_element.
  destruct (partition_column s) as [col|].
  - rewrite list_elem_of_fmap. split.
    + intros (v & -> & Hv). apply (proj1 (elem_of_unique _ _)) in Hv.
      apply list_elem_of_fmap in Hv as (p & -> & Hp). eauto.
    + intros (p & Hp & <-). eexists. split; [done|].
      apply elem_of_unique, list_elem_of_fmap. eauto.
  - rewrite list_elem_of_fmap. split.
    + intros (i & -> & Hi).
      apply list_elem_of_fmap in Hi as (p & -> & Hp). eauto.
    + intros (p & Hp & <-). eexists. split; [done|].
      apply list_elem_of_fmap. eauto.
Qed.

Lemma elem_of_folds e :
  e ∈ elements s ↔ ∃ f a, folds !! f = Some a ∧ e ∈ a.
Proof. by rewrite <- (fs_folds_perm _ _ _ Hfit), elem_of_concat. Qed.

Lemma folds_inj f f' a a' e :
  folds !! f = Some a -> folds !! f' = Some a' ->
  e ∈ a -> e ∈ a' -> f = f'.
Proof.
  apply NoDup_concat_inj.
  rewrite (fs_folds_perm _ _ _ Hfit). apply fitted_elements_NoDup.
Qed.

(** The rows that [select] returns for elements of the splitter. *)
Lemma select_spec idxs :
  (∀ e, e ∈ idxs -> e ∈ elements s) ->
  ∃ sub, select s idxs = Ok sub ∧
    ∀ p, p ∈ sub ↔
         p ∈ data s ∧ row_element (partition_column s) p ∈ idxs.
Proof.
  intros Hsub. unfold select, row_element.
  pose proof (fs_elements _ _ _ Hfit) as Hels.
  destruct (partition_column s) as [col|].
  - eexists. split; [done|]. intros p. unfold query_in.
    rewrite list_elem_of_filter. tauto.
  - apply loc_spec; [apply fitted_labels_NoDup|].
    intros e He%Hsub. rewrite Hels in He.
    apply list_elem_of_fmap in He as (i & -> & Hi). eauto.
Qed.

Lemma materialize_select (a b c : list (element Val)) :
  materialize s a b c
  = (tr ← select s a; va ← select s b; te ← select s c; Ok (tr, va, te)).
Proof. unfold materialize, select. by destruct (partition_column s). Qed.

(** *** Indexing by a run *)

Context idx (Hidx : (0 <= idx < k s)%Z).

Lemma val_fold_lookup :
  ∃ v, val !! Z.to_nat idx = Some v ∧ v < Z.to_nat (k s)
       ∧ v ≠ Z.to_nat idx.
Proof.
  pose proof (fs_val_perm _ _ _ Hfit) as Hperm.
  destruct (lookup_lt_is_Some_2 val (Z.to_nat idx)) as [v Hv].
  { rewrite Hperm, length_seq. lia. }
  exists v. split; [done|]. split.
  - apply list_elem_of_lookup_2 in Hv. rewrite Hperm in Hv.
    apply elem_of_seq in Hv. lia.
  - intros ->. by apply (fs_val_ne _ _ _ Hfit (Z.to_nat idx)).
Qed.

Lemma fold_lookup f :
  f < Z.to_nat (k s) -> ∃ a, folds !! f = Some a.
Proof.
  intros Hf. apply lookup_lt_is_Some_2.
  by rewrite (fs_folds_length _ _ _ Hfit).
Qed.

Lemma getitem_unfold v :
  val !! Z.to_nat idx = Some v ->
  getitem s idx
  = (training_idx ←
       np.concatenate
         ((λ f, default [] (folds !! f))
            <$> filter (λ i, is_train_fold v (Z.to_nat idx) i = true)
                  (seq 0 (Z.to_nat (k s))));
     materialize s training_idx (default [] (folds !! v))
       (filter (λ el, el ∉ exclude_from_test s)
          (default [] (folds !! Z.to_nat idx)))).
Proof.
  intros Hv. unfold getitem.
  rewrite (fs_fitted _ _ _ Hfit). simpl.
  assert (val_fold_of s idx = Ok v) as Hvf.
  { unfold val_fold_of. rewrite (fs_val _ _ _ Hfit). simpl.
    rewrite <- (Z2Nat.id idx) by lia. by apply index_nat_Ok. }
  assert (test_fold_of s idx = Ok (Z.to_nat idx)) as Htf.
  { unfold test_fold_of. rewrite (fs_test _ _ _ Hfit). simpl.
    rewrite <- (Z2Nat.id idx) at 1 by lia. apply index_nat_Ok.
    apply lookup_seq. lia. }
  assert (∀ f, f < Z.to_nat (k s) ->
            split_of s f = Ok (default [] (folds !! f))) as Hsplit.
  { intros f [a Ha]%fold_lookup. unfold split_of.
    rewrite (fs_splits _ _ _ Hfit). simpl.
    rewrite (index_nat_Ok _ _ a Ha). by rewrite Ha. }
  rewrite (filterM_Ok _ (is_train_fold v (Z.to_nat idx))).
  2:{ intros i _. rewrite Hvf. simpl. rewrite Htf. unfold is_train_fold.
      by destruct (negb (Nat.eqb i v)). }
  simpl. unfold np.range.
  rewrite (mapM_Ok _ (λ f, default [] (folds !! f))).
  2:{ intros f [_ Hf%elem_of_seq]%list_elem_of_filter.
      apply Hsplit. lia. }
  simpl.
  destruct (val_fold_lookup) as (v' & Hv' & Hvk & _).
  assert (v' = v) as -> by congruence.
  destruct (np.concatenate _) as [training_idx| |]; simpl; [|done..].
  rewrite Hvf. simpl. rewrite (Hsplit v Hvk). simpl.
  rewrite Htf. simpl. rewrite (Hsplit (Z.to_nat idx)) by lia. done.
Qed.

End fitted.

(** From three folds on, some fold is left for training. *)
Lemma train_folds_nonempty (n v r : nat) :
  3 <= n ->
  ∃ f, f ∈ filter (λ i, is_train_fold v r i = true) (seq 0 n).
Proof.
  intros Hn.
  assert (∃ f, f < 3 ∧ f ≠ v ∧ f ≠ r) as (f & Hf3 & Hfv & Hfr).
  { destruct (decide (v = 0)), (decide (r = 0)),
      (decide (v = 1)), (decide (r = 1));
      first [exists 0; lia | exists 1; lia | exists 2; lia]. }
  exists f. apply list_elem_of_filter. split.
  - unfold is_train_fold.
    apply andb_true_iff. by rewrite !negb_true_iff, !Nat.eqb_neq.
  - apply elem_of_seq. lia.
Qed.

Lemma elem_of_train_folds (n v r f : nat) :
  f ∈ filter (λ i, is_train_fold v r i = true) (seq 0 n)
  ↔ f < n ∧ f ≠ v ∧ f ≠ r.
Proof.
  rewrite list_elem_of_filter, elem_of_seq. unfold is_train_fold.
  rewrite andb_true_iff, !negb_true_iff, !Nat.eqb_neq. lia.
Qed.

Lemma concatenate_Ok {A} (arrays : list (list A)) x :
  np.concatenate arrays = Ok x -> x = concat arrays.
Proof. destruct arrays; [done|]. by intros [= <-]. Qed.

Lemma concatenate_nonempty {A} (arrays : list (list A)) a :
  a ∈ arrays -> np.concatenate arrays = Ok (concat arrays).
Proof. destruct arrays; [|done]. by intros ?%elem_of_nil. Qed.

Lemma fitted_state_set_exclude excl s folds val :
  fitted_state s folds val ->
  fitted_state (set_exclude_from_test excl s) folds val.
Proof. intros []. by constructor. Qed.

Lemma select_set_exclude excl s idxs :
  select (set_exclude_from_test excl s) idxs = select s idxs.
Proof. done. Qed.

(** Indexing a fitted splitter, spelled out: the training elements are
    concatenated, and each role gets its rows by [select]. *)
Lemma getitem_fitted s folds val idx :
  fitted_state s folds val -> (0 <= idx < k s)%Z ->
  ∃ v av ar,
    val !! Z.to_nat idx = Some v ∧ v < Z.to_nat (k s) ∧ v ≠ Z.to_nat idx ∧
    folds !! v = Some av ∧ folds !! Z.to_nat idx = Some ar ∧
    ∀ excl,
      getitem (set_exclude_from_test excl s) idx
      = (training_idx ←
           np.concatenate
             ((λ f, default [] (folds !! f))
                <$> filter (λ i, is_train_fold v (Z.to_nat idx) i = true)
                      (seq 0 (Z.to_nat (k s))));
         tr ← select s training_idx;
         va ← select s av;
         te ← select s (filter (λ el, el ∉ excl) ar);
         Ok (tr, va, te)).
Proof.
  intros Hfit Hidx.
  destruct (val_fold_lookup s folds val Hfit idx Hidx) as (v & Hv & Hvk & Hvr).
  destruct (fold_lookup s folds val Hfit v Hvk) as [av Hav].
  destruct (fold_lookup s folds val Hfit (Z.to_nat idx)) as [ar Har]; [lia|].
  exists v, av, ar. repeat (split; [done|]). intros excl.
  rewrite (getitem_unfold _ folds val
             (fitted_state_set_exclude excl s folds val Hfit) idx Hidx v Hv).
  simpl. rewrite Hav, Har. simpl.
  destruct (np.concatenate _) as [training_idx| |]; simpl; [|done..].
  by rewrite materialize_select.
Qed.

Lemma set_exclude_from_test_same s :
  set_exclude_from_test (exclude_from_test s) s = s.
Proof. by destruct s. Qed.

(** Which rows indexing returns in each role. *)
Lemma getitem_spec s folds val idx :
  fitted_state s folds val -> (0 <= idx < k s)%Z ->
  ∃ v, val !! Z.to_nat idx = Some v ∧ v < Z.to_nat (k s)
       ∧ v ≠ Z.to_nat idx ∧
    ((3 <= k s)%Z -> ∃ sub, getitem s idx = Ok sub) ∧
    ∀ tr va te, getitem s idx = Ok (tr, va, te) ->
      let el := row_element (partition_column s) in
      (∀ p, p ∈ tr ↔
            p ∈ data s ∧
            ∃ f a, f ≠ v ∧ f ≠ Z.to_nat idx
                   ∧ folds !! f = Some a ∧ el p ∈ a) ∧
      (∀ p, p ∈ va ↔
            p ∈ data s ∧ ∃ a, folds !! v = Some a ∧ el p ∈ a) ∧
      (∀ p, p ∈ te ↔
            p ∈ data s ∧ (∃ a, folds !! Z.to_nat idx = Some a ∧ el p ∈ a)
            ∧ el p ∉ exclude_from_test s) ∧
      ∃ te0,
        getitem (set_exclude_from_test [] s) idx = Ok (tr, va, te0) ∧
        ∀ p, p ∈ te0 ↔
             p ∈ data s
             ∧ ∃ a, folds !! Z.to_nat idx = Some a ∧ el p ∈ a.
Proof.
  intros Hfit Hidx.
  destruct (getitem_fitted s folds val idx Hfit Hidx)
    as (v & av & ar & Hv & Hvk & Hvr & Hav & Har & Hget).
  exists v. repeat (split; [done|]).
  set (r := Z.to_nat idx) in *.
  set (arrays := (λ f, default [] (folds !! f))
                   <$> filter (λ i, is_train_fold v r i = true)
                         (seq 0 (Z.to_nat (k s)))) in *.
  assert (∀ e, e ∈ concat arrays ↔
               ∃ f a, f ≠ v ∧ f ≠ r ∧ folds !! f = Some a ∧ e ∈ a) as Htrain.
  { intros e. unfold arrays. rewrite elem_of_concat_fmap. split.
    - intros (f & (Hf & ? & ?)%elem_of_train_folds & He).
      destruct (fold_lookup s folds val Hfit f Hf) as [a Ha].
      rewrite Ha in He. eauto 10.
    - intros (f & a & ? & ? & Ha & He). exists f.
      rewrite Ha. split; [|done]. apply elem_of_train_folds.
      apply lookup_lt_Some in Ha.
      rewrite (fs_folds_length _ _ _ Hfit) in Ha. done. }
  assert (∀ f a e, folds !! f = Some a -> e ∈ a -> e ∈ elements s) as Hin.
  { intros f a e Ha He. apply (elem_of_folds s folds val Hfit). eauto. }
  destruct (select_spec s folds val Hfit (concat arrays))
    as (tr' & Htr' & Htr).
  { intros e (f & a & _ & _ & Ha & He)%Htrain. eauto. }
  destruct (select_spec s folds val Hfit av) as (va' & Hva' & Hva);
    [by eauto|].
  assert (∀ excl, ∃ te', select s (filter (λ el, el ∉ excl) ar) = Ok te' ∧
            ∀ p, p ∈ te' ↔ p ∈ data s
                 ∧ row_element (partition_column s) p
                     ∈ filter (λ el, el ∉ excl) ar) as Hte.
  { intros excl. apply (select_spec s folds val Hfit).
    intros e [_ He]%list_elem_of_filter. eauto. }
  split.
  - intros Hk. rewrite <- (set_exclude_from_test_same s), Hget.
    destruct (train_folds_nonempty (Z.to_nat (k s)) v r ltac:(lia))
      as [f Hf].
    rewrite (concatenate_nonempty arrays (default [] (folds !! f)))
      by apply (list_elem_of_fmap_2 (λ f0, default [] (folds !! f0)) _ f Hf).
    simpl. rewrite Htr'. simpl. rewrite Hva'. simpl.
    destruct (Hte (exclude_from_test s)) as (te' & -> & _). simpl. eauto.
  - intros tr va te Hsub. rewrite <- (set_exclude_from_test_same s) in Hsub.
    rewrite Hget in Hsub.
    destruct (np.concatenate arrays) as [tri| |] eqn:Hcat;
      simpl in Hsub; [|done..].
    pose proof (concatenate_Ok _ _ Hcat) as Htri. subst tri.
    rewrite Htr' in Hsub. simpl in Hsub. rewrite Hva' in Hsub.
    simpl in Hsub.
    destruct (Hte (exclude_from_test s)) as (te' & Hte' & Hte1).
    rewrite Hte' in Hsub. simpl in Hsub. injection Hsub as <- <- <-.
    simpl. split; [|split; [|split]].
    + intros p. rewrite Htr, Htrain. done.
    + intros p. rewrite Hva. split.
      * intros [? ?]. eauto.
      * intros [? (a & Ha & ?)]. by simplify_eq.
    + intros p. rewrite Hte1, list_elem_of_filter. split.
      * intros (? & ? & ?). eauto.
      * intros (? & (a & Ha & ?) & ?). by simplify_eq.
    + destruct (Hte []) as (te0 & Hte0 & Hte2). exists te0. split.
      * by rewrite Hget, bind_Ok, Htr', bind_Ok, Hva', bind_Ok, Hte0.
      * intros p. rewrite Hte2, list_elem_of_filter. split.
        -- intros (? & ? & ?). eauto.
        -- intros (? & (a & Ha & ?)). simplify_eq.
           split; [done|]. split; [|done]. apply not_elem_of_nil.
Qed.

(** [fit] leaves the arguments of the constructor in place. *)
Lemma fit_fields df (n_folds : Z) pc sd excl fuel shuffle s :
  fit fuel shuffle (Splitter_init df n_folds pc sd excl) = Ok s ->
  k s = n_folds ∧ partition_column s = pc ∧ exclude_from_test s = excl
  ∧ seed s = sd.
Proof.
  intros Hs.
  destruct (fit_fitted_state _ _ _ _ _ _ _ _ Hs) as (folds & val & _ & ->).
  done.
Qed.

End Splitter_facts.

(** * The properties of the specification *)

Section Splitter_claims.
Context {Row Val : Type} `{EqDecision Val}.
Context {G : Type} `{!Generator (pyseed Val) G}.

Implicit Types (s : Splitter Row Val) (df : DataFrame Row).
Implicit Types (e : element Val) (idx : Z) (p : nat * Row).
Implicit Types (folds : list (list (element Val))) (val : list nat).
Implicit Types (pc : option (Row -> Val)) (sd : pyseed Val).
Implicit Types (excl : list (element Val)).

(** Claim C2.  For a splitter whose elements are pairwise different and
    whose fold count [k] is positive (in particular for [1 <= k <= n]),
    whatever the seed that [default_rng] accepts and the shuffle setting
    (on another seed [default_rng] raises), [get_partitions] returns
    and stores [k] folds: every element lies in a fold and every member
    of a fold is an element; two different folds share no element and no
    fold repeats one; fold [i] has [n / k] elements plus one if
    [i < n mod k], so the remainder goes to the earliest folds and two
    fold sizes differ by at most one. *)
Theorem get_partitions_folds shuffle s (rng : G) :
  NoDup (elements s) ->
  (0 < k s)%Z ->
  default_rng (seed s) = Ok rng ->
  ∃ folds,
    get_partitions shuffle s = Ok (with_partitions s folds) ∧
    length folds = Z.to_nat (k s) ∧
    (∀ e, e ∈ elements s ↔ ∃ f a, folds !! f = Some a ∧ e ∈ a) ∧
    (∀ f f' a a' e,
       folds !! f = Some a -> folds !! f' = Some a' ->
       e ∈ a -> e ∈ a' -> f = f') ∧
    (∀ f a, folds !! f = Some a -> NoDup a) ∧
    (∀ f, f < Z.to_nat (k s) ->
       length <$> folds !! f
       = Some (length (elements s) / Z.to_nat (k s)
               + (if f <? length (elements s) mod Z.to_nat (k s)
                  then 1 else 0))) ∧
    (∀ f f' a a',
       folds !! f = Some a -> folds !! f' = Some a' ->
       length a <= length a' + 1).
Proof.
  intros Hnd Hk Hrng.
  destruct (get_partitions_spec shuffle s rng Hrng Hk)
    as (folds & Hget & Hlen & Hperm & Hsz).
  assert (NoDup (concat folds)) as Hndc by by rewrite Hperm.
  exists folds. split; [done|]. split; [done|].
  split; [|split; [|split; [|split]]].
  - intros e. by rewrite <- Hperm, elem_of_concat.
  - intros f f' a a' e. by apply NoDup_concat_inj.
  - intros f a Hf. clear -Hndc Hf. revert f Hf.
    induction folds as [|b folds IH]; intros f Hf; [done|].
    simpl in Hndc. apply NoDup_app in Hndc as (Hb & _ & Hrest).
    destruct f as [|f]; simpl in Hf; [by simplify_eq|by eauto].
  - done.
  - intros f f' a a' Hf Hf'.
    pose proof (lookup_lt_Some _ _ _ Hf) as Hlt.
    pose proof (lookup_lt_Some _ _ _ Hf') as Hlt'.
    rewrite Hlen in Hlt, Hlt'.
    pose proof (Hsz f Hlt) as Ha. pose proof (Hsz f' Hlt') as Ha'.
    rewrite Hf in Ha. rewrite Hf' in Ha'. simpl in Ha, Ha'.
    injection Ha as ->. injection Ha' as ->.
    repeat case_match; lia.
Qed.


(** With one fold every draw is the permutation [0] and is rejected. *)
Lemma draw_until_valid_one fuel (rng : G) :
  draw_until_valid fuel rng 1 (np.arange 1) = OutOfFuel.
Proof.
  apply draw_until_valid_never. intros j.
  pose proof (nth_draw_perm rng (Z.to_nat 1) j) as Hperm.
  change (seq 0 (Z.to_nat 1)) with [0] in Hperm.
  apply Permutation_singleton_r in Hperm. by rewrite Hperm.
Qed.

Lemma get_folds_one_fold s (rng : G) fuel :
  k s = 1%Z -> default_rng (seed s) = Ok rng -> partitioned s = true ->
  get_folds fuel s = OutOfFuel.
Proof.
  intros Hk Hrng Hpart. unfold get_folds.
  rewrite Hpart, Hrng, Hk. simpl. by rewrite draw_until_valid_one.
Qed.

Lemma fit_one_fold s (rng : G) fuel shuffle :
  k s = 1%Z -> default_rng (seed s) = Ok rng ->
  fit fuel shuffle s = OutOfFuel.
Proof.
  intros Hk Hrng. unfold fit.
  destruct (get_partitions_spec shuffle s rng Hrng) as (folds & -> & _);
    [lia|].
  simpl. by apply (get_folds_one_fold _ rng).
Qed.

(** No splitter is fitted with one fold, whatever the seed. *)
Lemma fit_one_fold_not_Ok s fuel shuffle s' :
  k s = 1%Z -> fit fuel shuffle s ≠ Ok s'.
Proof.
  intros Hk Hs.
  destruct (default_rng (seed s)) as [rng| |] eqn:Hrng.
  - by rewrite (fit_one_fold s rng fuel shuffle Hk Hrng) in Hs.
  - unfold fit, get_partitions in Hs. by rewrite Hrng in Hs.
  - unfold fit, get_partitions in Hs. by rewrite Hrng in Hs.
Qed.

(** Claim C9, as the code has it.  For [k = 1] and a seed that
    [default_rng] accepts, the fold-role assignment produces no
    assignment at all, hence no degenerate one; it does not fail either:
    [get_folds], and so [fit], keep drawing and rejecting the only
    permutation of [0, 1) and never return. *)
Theorem get_folds_one_fold_diverges s (rng : G) :
  k s = 1%Z ->
  default_rng (seed s) = Ok rng ->
  (partitioned s = true -> ∀ fuel, get_folds fuel s = OutOfFuel) ∧
  (∀ fuel shuffle, fit fuel shuffle s = OutOfFuel).
Proof.
  intros Hk Hrng. split.
  - intros Hpart fuel. by apply (get_folds_one_fold _ rng).
  - intros fuel shuffle. by apply (fit_one_fold _ rng).
Qed.

Lemma elem_of_frame_elements s sub e :
  e ∈ frame_elements s sub
  ↔ ∃ p, p ∈ sub ∧ row_element (partition_column s) p = e.
Proof.
  unfold frame_elements. rewrite list_elem_of_fmap. split.
  - intros (p & -> & Hp). eauto.
  - intros (p & Hp & <-). eauto.
Qed.

(** The roles of a run of a splitter fitted by [fit]: which rows each
    frame holds, in terms of the folds. *)
Lemma getitem_roles df (k : Z) pc sd excl fuel shuffle s idx tr va te :
  fit fuel shuffle (Splitter_init df k pc sd excl) = Ok s ->
  (0 <= idx < k)%Z ->
  getitem s idx = Ok (tr, va, te) ->
  ∃ folds val v te0,
    fitted_state s folds val ∧
    partition_column s = pc ∧ exclude_from_test s = excl ∧
    v ≠ Z.to_nat idx ∧
    (∀ p, p ∈ tr ↔
          p ∈ data s ∧
          ∃ f a, f ≠ v ∧ f ≠ Z.to_nat idx
                 ∧ folds !! f = Some a ∧ row_element pc p ∈ a) ∧
    (∀ p, p ∈ va ↔
          p ∈ data s ∧ ∃ a, folds !! v = Some a ∧ row_element pc p ∈ a) ∧
    (∀ p, p ∈ te ↔
          p ∈ data s
          ∧ (∃ a, folds !! Z.to_nat idx = Some a ∧ row_element pc p ∈ a)
          ∧ row_element pc p ∉ excl) ∧
    getitem (set_exclude_from_test [] s) idx = Ok (tr, va, te0) ∧
    (∀ p, p ∈ te0 ↔
          p ∈ data s
          ∧ ∃ a, folds !! Z.to_nat idx = Some a ∧ row_element pc p ∈ a) ∧
    (∀ e, e ∈ elements s ->
          e ∈ frame_elements s tr ∨ e ∈ frame_elements s va
          ∨ e ∈ frame_elements s te0).
Proof.
  intros Hs Hidx Hget.
  destruct (fit_fitted_state _ _ _ _ _ _ _ _ Hs) as (folds & val & Hfit & Hs').
  destruct (fit_fields _ _ _ _ _ _ _ _ Hs) as (Hk & Hpc & Hexcl & _).
  destruct (getitem_spec s folds val idx Hfit ltac:(lia))
    as (v & Hv & Hvk & Hvr & _ & Hsub).
  destruct (Hsub tr va te Hget) as (Htr & Hva & Hte & te0 & Hget0 & Hte0).
  rewrite Hpc in Htr, Hva, Hte, Hte0. rewrite Hexcl in Hte.
  exists folds, val, v, te0. repeat (split; [done|]).
  intros e He. rewrite !elem_of_frame_elements, Hpc.
  pose proof He as (p & Hp & <-)%(elem_of_elements s folds val Hfit).
  apply (elem_of_folds s folds val Hfit) in He as (f & a & Hf & Ha).
  rewrite Hpc in Ha |- *.
  destruct (decide (f = v)) as [->|Hfv];
    [right; left; exists p; split; [apply Hva|]; eauto|].
  destruct (decide (f = Z.to_nat idx)) as [->|Hfr];
    [right; right; exists p; split; [apply Hte0|]; eauto|].
  left. exists p. split; [apply Htr|]; eauto 10.
Qed.

(** Claim C1.  Let [s] be a splitter fitted with fold count [k] and
    [idx] a run in [0, k).  From three folds on, indexing returns.
    Whenever it returns [(train, val, test)], no element has rows in two
    of the three frames, and with the exclusion list left out (the same
    splitter with an empty list returns the same [train] and [val], and
    the unfiltered test frame) the elements of the three frames are
    exactly the elements of the splitter. *)
Theorem getitem_partitions_elements df (k : Z) pc sd excl fuel shuffle s idx :
  fit fuel shuffle (Splitter_init df k pc sd excl) = Ok s ->
  (0 <= idx < k)%Z ->
  ((3 <= k)%Z -> ∃ sub, getitem s idx = Ok sub) ∧
  ∀ tr va te,
    getitem s idx = Ok (tr, va, te) ->
    (∀ e, e ∈ frame_elements s tr -> e ∉ frame_elements s va) ∧
    (∀ e, e ∈ frame_elements s tr -> e ∉ frame_elements s te) ∧
    (∀ e, e ∈ frame_elements s va -> e ∉ frame_elements s te) ∧
    ∃ te0,
      getitem (set_exclude_from_test [] s) idx = Ok (tr, va, te0) ∧
      ∀ e, e ∈ elements s ↔
           e ∈ frame_elements s tr ∨ e ∈ frame_elements s va
           ∨ e ∈ frame_elements s te0.
Proof.
  intros Hs Hidx. split.
  { intros Hk.
    destruct (fit_fitted_state _ _ _ _ _ _ _ _ Hs)
      as (folds & val & Hfit & Hs').
    destruct (fit_fields _ _ _ _ _ _ _ _ Hs) as (Hks & _).
    destruct (getitem_spec s folds val idx Hfit ltac:(lia))
      as (v & _ & _ & _ & Hex & _).
    apply Hex. lia. }
  intros tr va te Hget.
  destruct (getitem_roles _ _ _ _ _ _ _ _ _ _ _ _ Hs Hidx Hget)
    as (folds & val & v & te0 & Hfit & Hpc & Hexcl & Hvr
        & Htr & Hva & Hte & Hget0 & Hte0 & Hall).
  pose proof (folds_inj s folds val Hfit) as Hinj.
  split; [|split; [|split]].
  - intros e (p & Hp & <-)%elem_of_frame_elements
             (q & Hq & Heq)%elem_of_frame_elements.
    rewrite Hpc in Heq.
    apply Htr in Hp as (_ & f & a & Hfv & _ & Hf & Hpa).
    apply Hva in Hq as (_ & b & Hb & Hqb). rewrite Heq in Hqb.
    apply Hfv. eapply Hinj; eauto.
  - intros e (p & Hp & <-)%elem_of_frame_elements
             (q & Hq & Heq)%elem_of_frame_elements.
    rewrite Hpc in Heq.
    apply Htr in Hp as (_ & f & a & _ & Hfr & Hf & Hpa).
    apply Hte in Hq as (_ & (b & Hb & Hqb) & _). rewrite Heq in Hqb.
    apply Hfr. eapply Hinj; eauto.
  - intros e (p & Hp & <-)%elem_of_frame_elements
             (q & Hq & Heq)%elem_of_frame_elements.
    rewrite Hpc in Heq.
    apply Hva in Hp as (_ & a & Ha & Hpa).
    apply Hte in Hq as (_ & (b & Hb & Hqb) & _). rewrite Heq in Hqb.
    apply Hvr. eapply Hinj; eauto.
  - exists te0. split; [done|]. intros e. split; [apply Hall|].
    rewrite !elem_of_frame_elements.
    intros [(p & Hp & <-)|[(p & Hp & <-)|(p & Hp & <-)]];
      apply (elem_of_elements s folds val Hfit); exists p;
      (split; [|done]).
    + by apply Htr in Hp as [? _].
    + by apply Hva in Hp as [? _].
    + by apply Hte0 in Hp as [? _].
Qed.

(** Claim C4.  Let [s] be a fitted splitter with exclusion list [excl]
    and [(train, val, test)] what indexing returns for a run.  No row of
    [test] has its element in [excl].  [train] and [val] are the frames
    that the same splitter returns with an empty exclusion list, and
    [test] is that splitter's test frame without the rows of excluded
    elements; so an excluded element of the splitter that is not in the
    test fold has its rows in [train] or in [val]. *)
Theorem exclusion_only_from_test df (k : Z) pc sd excl fuel shuffle s idx
    tr va te :
  fit fuel shuffle (Splitter_init df k pc sd excl) = Ok s ->
  (0 <= idx < k)%Z ->
  getitem s idx = Ok (tr, va, te) ->
  (∀ e, e ∈ excl -> e ∉ frame_elements s te) ∧
  ∃ te0,
    getitem (set_exclude_from_test [] s) idx = Ok (tr, va, te0) ∧
    (∀ p, p ∈ te ↔ p ∈ te0 ∧ row_element pc p ∉ excl) ∧
    (∀ e, e ∈ excl -> e ∈ elements s -> e ∉ frame_elements s te0 ->
          e ∈ frame_elements s tr ∨ e ∈ frame_elements s va).
Proof.
  intros Hs Hidx Hget.
  destruct (getitem_roles _ _ _ _ _ _ _ _ _ _ _ _ Hs Hidx Hget)
    as (folds & val & v & te0 & Hfit & Hpc & Hexcl & Hvr
        & Htr & Hva & Hte & Hget0 & Hte0 & Hall).
  split.
  - intros e He (p & Hp & <-)%elem_of_frame_elements.
    rewrite Hpc in He. by apply Hte in Hp as (_ & _ & Hne).
  - exists te0. split; [done|]. split.
    + intros p. rewrite Hte, Hte0. tauto.
    + intros e _ He Hnot. apply Hall in He. tauto.
Qed.

(** Claim C6.  Let [s] be a splitter with partition column [col],
    fitted, and [(train, val, test)] what indexing returns for a run.
    Two rows of the table with the same value of [col] are in the same
    frames: both in [train] or neither, both in [val] or neither, both
    in [test] or neither; and no row is in two frames.  So no group has
    rows in two roles. *)
Theorem group_in_one_role df (k : Z) (col : Row -> Val) sd excl fuel shuffle
    s idx tr va te :
  fit fuel shuffle (Splitter_init df k (Some col) sd excl) = Ok s ->
  (0 <= idx < k)%Z ->
  getitem s idx = Ok (tr, va, te) ->
  ∀ p q,
    p ∈ data s -> q ∈ data s -> col p.2 = col q.2 ->
    (p ∈ tr ↔ q ∈ tr) ∧ (p ∈ va ↔ q ∈ va) ∧ (p ∈ te ↔ q ∈ te) ∧
    ¬ (p ∈ tr ∧ q ∈ va) ∧ ¬ (p ∈ tr ∧ q ∈ te) ∧ ¬ (p ∈ va ∧ q ∈ te).
Proof.
  intros Hs Hidx Hget p q Hp Hq Hpq.
  destruct (getitem_roles _ _ _ _ _ _ _ _ _ _ _ _ Hs Hidx Hget)
    as (folds & val & v & te0 & Hfit & Hpc & Hexcl & Hvr
        & Htr & Hva & Hte & Hget0 & Hte0 & Hall).
  pose proof (folds_inj s folds val Hfit) as Hinj.
  assert (row_element (Some col) p = row_element (Some col) q) as Hel
    by (simpl; congruence).
  rewrite !Htr, !Hva, !Hte, Hel.
  split; [tauto|]. split; [tauto|]. split; [tauto|].
  split; [|split].
  - intros [(_ & f & a & Hfv & _ & Hf & Ha) (_ & b & Hb & Hqb)].
    apply Hfv. eapply Hinj; eauto.
  - intros [(_ & f & a & _ & Hfr & Hf & Ha) (_ & (b & Hb & Hqb) & _)].
    apply Hfr. eapply Hinj; eauto.
  - intros [(_ & a & Ha & Hpa) (_ & (b & Hb & Hqb) & _)].
    apply Hvr. eapply Hinj; eauto.
Qed.

End Splitter_claims.

Section precondition_claims.
Context {Row Val Y Scaler : Type} `{EqDecision Val}.
Context {G : Type} `{!Generator (pyseed Val) G}.
Context `{!Scaling Y Scaler}.
Context (column_Y : Row -> Y) (assign_Y : Row -> Y -> Row).

(** Claim C8, on the code.  [get_folds] before [get_partitions] and
    [transform] on a [TargetPipeline] that was not fitted fail by their
    assertion, as the specification says.  Indexing a splitter before
    [fit] and [transform] on a [LogMinMaxScaling] or [MinMaxScaling]
    that was not fitted do not reach the assertion: [fitted] was never
    assigned, and reading it raises [AttributeError]. *)
Theorem precondition_violations :
  (∀ (df : DataFrame Row) (k : Z) (pc : option (Row -> Val)) sd excl fuel,
     get_folds fuel (Splitter_init df k pc sd excl)
     = Raise (AssertionError "The data was not partitioned yet")) ∧
  (∀ (x : DataFrame Row),
     transform TargetPipeline_init x
     = Raise (AssertionError
                "You are trying to transform data using a non-fitted processor")) ∧
  (∀ (df : DataFrame Row) (k : Z) (pc : option (Row -> Val)) sd excl idx,
     getitem (Splitter_init df k pc sd excl) idx
     = Raise (AttributeError "fitted")) ∧
  (∀ offset target_range (x : DataFrame Row),
     transform (TargetPipeline0 := LogMinMaxScaling_methods column_Y assign_Y)
       (LogMinMaxScaling_init offset target_range) x
     = Raise (AttributeError "fitted")) ∧
  (∀ target_range (x : DataFrame Row),
     transform (TargetPipeline0 := MinMaxScaling_methods column_Y assign_Y)
       (MinMaxScaling_init target_range) x
     = Raise (AttributeError "fitted")).
Proof. repeat split. Qed.

End precondition_claims.

Section DatasetManager_claims.
Context {Row Val Cells DrugId Repr T G : Type}.
Context `{EqDecision Val} `{Countable DrugId}.
Context `{!Generator (pyseed Val) G}.
Context `{!TargetPipeline T (DataFrame Row)}.

Implicit Types (self : DatasetManager Row Val Cells DrugId Repr T).

(** Claim C5.  A manager constructed with [exclude_from_test = E] owns
    a splitter whose exclusion list is the empty default and whose seed
    is [E], not the default 3558.  The test frame that this splitter
    returns for a run holds every row of the table whose element is in
    the test fold, the rows of elements of [E] among them. *)
Theorem manager_exclusion_is_seed fuel pp (tp : T) feat (k : Z)
    (pc : option (Row -> Val)) (E : list (element Val)) self :
  DatasetManager_init (Cells := Cells) (DrugId := DrugId) (Repr := Repr)
    fuel pp tp feat k pc E = Ok self ->
  exclude_from_test (splitter self) = [] ∧
  seed (splitter self) = SeedSeq E ∧
  seed (splitter self) ≠ default_seed ∧
  ∀ idx tr va te,
    (0 <= idx < k)%Z ->
    getitem (splitter self) idx = Ok (tr, va, te) ->
    ∃ folds test_fold,
      splits (splitter self) = Some folds ∧
      folds !! Z.to_nat idx = Some test_fold ∧
      ∀ p, p ∈ te ↔
           p ∈ data (splitter self) ∧ row_element pc p ∈ test_fold.
Proof.
  unfold DatasetManager_init.
  destruct (preprocess pp) as [df| |]; simpl; [|done..].
  destruct (fit fuel true _) as [s| |] eqn:Hs; simpl; [|done..].
  intros [= <-]. simpl.
  destruct (fit_fitted_state _ _ _ _ _ _ _ _ Hs)
    as (folds & val & Hfit & Hs').
  split; [by rewrite Hs'|]. split; [by rewrite Hs'|].
  split; [by rewrite Hs'|].
  intros idx tr va te Hidx Hget.
  destruct (getitem_roles _ _ _ _ _ _ _ _ _ _ _ _ Hs Hidx Hget)
    as (folds' & val' & v & te0 & Hfit' & Hpc & Hexcl & Hvr
        & Htr & Hva & Hte & Hget0 & Hte0 & Hall).
  destruct (fit_fields _ _ _ _ _ _ _ _ Hs) as (Hk & _).
  destruct (fold_lookup s folds' val' Hfit' (Z.to_nat idx)) as [a Ha];
    [lia|].
  exists folds', a. split; [apply Hfit'|]. split; [done|].
  intros p. rewrite Hte. split.
  - intros (? & (b & Hb & ?) & _). by simplify_eq.
  - intros [? ?]. split; [done|]. split; [by eauto|].
    apply not_elem_of_nil.
Qed.

(** Claim C10.  [get_partition] returns, in this order, the transformed
    train, test and validation frames of the run (the processor being
    fitted on the train frame): the second frame is the transformed
    test frame and the third the transformed validation frame, where
    indexing the splitter gives train, validation, test. *)
Theorem get_partition_order self idx self' a b c :
  get_partition self idx = Ok (self', (a, b, c)) ↔
  ∃ train val test processor,
    getitem (splitter self) idx = Ok (train, val, test) ∧
    tp_fit (target_processor self) train = Ok processor ∧
    transform processor train = Ok a ∧
    transform processor test = Ok b ∧
    transform processor val = Ok c ∧
    self' = {| ppl := ppl self;
               drug_featurizer := drug_featurizer self;
               processed_data := processed_data self;
               splitter := splitter self;
               target_processor := processor |}.
Proof.
  unfold get_partition. split.
  - destruct (getitem (splitter self) idx) as [[[train val] test]| |];
      simpl; [|done..].
    destruct (tp_fit (target_processor self) train) as [processor| |]
      eqn:Hfit; simpl; [|done..].
    destruct (transform processor train) as [a'| |] eqn:Ha;
      simpl; [|done..].
    destruct (transform processor test) as [b'| |] eqn:Hb;
      simpl; [|done..].
    destruct (transform processor val) as [c'| |] eqn:Hc;
      simpl; [|done..].
    intros [= <- <- <- <-]. by exists train, val, test, processor.
  - intros (train & val & test & processor
            & -> & Hfit & Ha & Hb & Hc & ->).
    simpl. rewrite Hfit. simpl. rewrite Ha. simpl. rewrite Hb. simpl.
    by rewrite Hc.
Qed.

(** What [get_drugs] warns about: the identifiers of the mapping that
    were not requested. *)
Lemma get_drugs_warnings self w drug_dict w' :
  get_drugs self w = Ok (drug_dict, w') ->
  ∃ smiles,
    ppl_get_drugs (ppl self) = Ok smiles ∧
    warnings w' =
    warnings w ++
    (if decide (0 < size (dom drug_dict ∖ list_to_set (C := gset DrugId)
                                             smiles.*1))
     then [RuntimeWarning_not_featurized
             (dom drug_dict ∖ list_to_set smiles.*1)]
     else []).
Proof.
  unfold get_drugs.
  destruct (ppl_get_drugs (ppl self)) as [smiles| |]; simpl; [|done..].
  destruct (featurizer_str (drug_featurizer self)) as [fs| |];
    simpl; [|done..].
  destruct (files w !! _) as [stored|]; simpl.
  - intros [= <- <-]. exists smiles. split; [done|].
    case_decide; simpl; [done|by rewrite app_nil_r].
  - destruct (featurize _ _ _) as [d| |]; simpl; [|done..].
    intros [= <- <-]. exists smiles. split; [done|].
    case_decide; simpl; [done|by rewrite app_nil_r].
Qed.

End DatasetManager_claims.

(** * The properties on the small instance *)

Section instances.
Import demo.

Lemma by_row_fit : fit 5 true by_row = Ok by_row_fitted.
Proof. vm_compute. reflexivity. Qed.

Lemma by_cell_fit : fit 5 true by_cell = Ok by_cell_fitted.
Proof. vm_compute. reflexivity. Qed.

Lemma manager_init :
  DatasetManager_init 5 pipeline scaler partial_featurizer 3 None [Idx 2]
  = Ok manager.
Proof. vm_compute. reflexivity. Qed.

(** A seed that the generator refuses: [fit] raises at once, and so
    does the constructor of the manager when the exclusion list it hands
    on as seed holds cell-line names. *)
Example refused_seed_raises :
  fit 5 true (Splitter_init (Val := string) table 3 None (SeedInt (-1)) [])
  = Raise (ValueError "expected non-negative integer") ∧
  DatasetManager_init (Val := string) 5 pipeline scaler partial_featurizer 3
    (Some CELL_ID) [Grp "c1"]
  = Raise (ValueError "unrecognized seed string").
Proof. split; vm_compute; reflexivity. Qed.

(** With two folds no fold is left for training, and
    [np.concatenate] refuses the empty list. *)
Example getitem_two_folds :
  ∃ s, fit 5 true two_folds = Ok s ∧
       getitem s 0
       = Raise (ValueError "need at least one array to concatenate").
Proof. eexists. split; vm_compute; reflexivity. Qed.

(** Row 2 is kept out of test, and is in the validation frame of
    run 0. *)
Example excluded_row_in_validation :
  ∃ tr va te,
    getitem by_row_fitted 0 = Ok (tr, va, te) ∧
    Idx 2 ∈ exclude_from_test by_row_fitted ∧
    Idx 2 ∈ frame_elements by_row_fitted va.
Proof.
  eexists _, _, _. split; [vm_compute; reflexivity|].
  split; vm_compute;
    repeat first [apply list_elem_of_here | apply list_elem_of_further].
Qed.

Lemma get_partitions_folds_witness :
  NoDup (elements by_row) ∧ (0 < k by_row)%Z ∧
  default_rng (seed by_row) = Ok 3558 ∧
  ∃ folds,
    get_partitions true by_row = Ok (with_partitions by_row folds) ∧
    length folds = 3.
Proof.
  assert (NoDup (elements by_row)) as Hnd
    by (apply (bool_decide_unpack _); vm_compute; exact I).
  assert (0 < k by_row)%Z as Hk by (simpl; lia).
  assert (default_rng (seed by_row) = Ok 3558) as Hrng
    by (vm_compute; reflexivity).
  split; [done|]. split; [done|]. split; [done|].
  destruct (get_partitions_folds true by_row 3558 Hnd Hk Hrng)
    as (folds & Hget & Hlen & _).
  exists folds. by split.
Defined.





Lemma getitem_partitions_elements_witness :
  fit 5 true by_row = Ok by_row_fitted ∧ (0 <= 0 < 3)%Z ∧
  ∃ tr va te,
    getitem by_row_fitted 0 = Ok (tr, va, te) ∧
    ∀ e, e ∈ frame_elements by_row_fitted tr ->
         e ∉ frame_elements by_row_fitted va.
Proof.
  assert (fit 5 true by_row = Ok by_row_fitted) as Hfit
    by (vm_compute; reflexivity).
  assert (0 <= 0 < 3)%Z as Hidx by lia.
  split; [done|]. split; [done|].
  destruct (getitem_partitions_elements table 3 None (SeedInt 3558) [Idx 2]
              5 true by_row_fitted 0 Hfit Hidx) as [Hreturns Hsub].
  destruct Hreturns as [[[tr va] te] Hget]; [lia|].
  exists tr, va, te. split; [done|].
  by destruct (Hsub tr va te Hget) as [Hdisj _].
Defined.

Lemma exclusion_only_from_test_witness :
  fit 5 true by_row = Ok by_row_fitted ∧ (0 <= 0 < 3)%Z ∧
  getitem by_row_fitted 0 = Ok by_row_run0 ∧
  ∀ e, e ∈ [Idx 2] -> e ∉ frame_elements by_row_fitted by_row_run0.2.
Proof.
  assert (fit 5 true by_row = Ok by_row_fitted) as Hfit
    by (vm_compute; reflexivity).
  assert (0 <= 0 < 3)%Z as Hidx by lia.
  assert (getitem by_row_fitted 0 = Ok by_row_run0) as Hget
    by (vm_compute; reflexivity).
  split; [done|]. split; [done|]. split; [done|].
  by destruct (exclusion_only_from_test table 3 None (SeedInt 3558) [Idx 2]
                 5 true by_row_fitted 0 _ _ _ Hfit Hidx Hget) as [Hexcl _].
Defined.

Lemma group_in_one_role_witness :
  let p := (0, ("c0", "d0", 5)) in
  let q := (1, ("c0", "d1", 7)) in
  fit 5 true by_cell = Ok by_cell_fitted ∧ (0 <= 1 < 3)%Z ∧
  getitem by_cell_fitted 1 = Ok by_cell_run1 ∧
  p ∈ data by_cell_fitted ∧ q ∈ data by_cell_fitted ∧
  CELL_ID p.2 = CELL_ID q.2 ∧
  (p ∈ by_cell_run1.2 ↔ q ∈ by_cell_run1.2).
Proof.
  intros p q.
  assert (fit 5 true by_cell = Ok by_cell_fitted) as Hfit
    by (vm_compute; reflexivity).
  assert (0 <= 1 < 3)%Z as Hidx by lia.
  assert (getitem by_cell_fitted 1 = Ok by_cell_run1) as Hget
    by (vm_compute; reflexivity).
  assert (p ∈ data by_cell_fitted) as Hp
    by (vm_compute; apply list_elem_of_here).
  assert (q ∈ data by_cell_fitted) as Hq
    by (vm_compute; apply list_elem_of_further, list_elem_of_here).
  assert (CELL_ID p.2 = CELL_ID q.2) as Hpq by reflexivity.
  repeat (split; [done|]).
  by destruct (group_in_one_role table 3 CELL_ID (SeedInt 3558) [Grp "c1"]
                 5 true by_cell_fitted 1 _ _ _ Hfit Hidx Hget p q Hp Hq Hpq)
    as (_ & _ & Hte & _).
Defined.

Lemma manager_exclusion_is_seed_witness :
  DatasetManager_init 5 pipeline scaler partial_featurizer 3 None [Idx 2]
  = Ok manager ∧
  exclude_from_test (splitter manager) = [] ∧
  seed (splitter manager) = SeedSeq [Idx 2].
Proof.
  assert (DatasetManager_init 5 pipeline scaler partial_featurizer 3 None
            [Idx 2] = Ok manager) as Hinit by (vm_compute; reflexivity).
  split; [done|].
  by destruct (manager_exclusion_is_seed 5 pipeline scaler
                 partial_featurizer 3 None [Idx 2] manager Hinit)
    as (Hexcl & Hseed & _).
Defined.

Lemma get_folds_one_fold_diverges_witness :
  k one_fold = 1%Z ∧ default_rng (seed one_fold) = Ok 3558 ∧
  ∀ fuel shuffle, fit fuel shuffle one_fold = OutOfFuel.
Proof.
  assert (k one_fold = 1%Z) as Hk by reflexivity.
  assert (default_rng (seed one_fold) = Ok 3558) as Hrng
    by (vm_compute; reflexivity).
  split; [done|]. split; [done|].
  by destruct (get_folds_one_fold_diverges one_fold 3558 Hk Hrng)
    as [_ Hfit].
Defined.

(** With one fold, neither [fit] nor [get_folds] after [get_partitions]
    raises an error, whatever the number of rounds they are given. *)
Lemma one_fold_raises_no_error :
  ¬ (∃ fuel e, fit fuel true one_fold = Raise e) ∧
  ¬ (∃ fuel e s, get_partitions true one_fold = Ok s
                 ∧ get_folds fuel s = Raise e).
Proof.
  assert (default_rng (seed one_fold) = Ok 3558) as Hrng
    by (vm_compute; reflexivity).
  split.
  - intros (fuel & e & Hfit).
    by rewrite (fit_one_fold one_fold 3558 fuel true eq_refl Hrng) in Hfit.
  - intros (fuel & e & s & Hpart & Hfolds).
    vm_compute in Hpart. injection Hpart as <-.
    rewrite (get_folds_one_fold _ 3558 fuel) in Hfolds; done.
Qed.

(** The second frame that [get_partition] returns is the transformed
    test frame of the run, the third the transformed validation
    frame. *)
Example get_partition_order_example :
  ∃ tr va te tp,
    getitem (splitter manager) 2 = Ok (tr, va, te) ∧
    tp_fit (target_processor manager) tr = Ok tp ∧
    ∃ a b c self',
      get_partition manager 2 = Ok (self', (a, b, c)) ∧
      transform tp te = Ok b ∧ transform tp va = Ok c ∧ b ≠ c.
Proof.
  eexists _, _, _, _. split; [vm_compute; reflexivity|].
  split; [vm_compute; reflexivity|].
  eexists _, _, _, _. split; [vm_compute; reflexivity|].
  split; [vm_compute; reflexivity|]. split; [vm_compute; reflexivity|].
  discriminate.
Qed.

(** Claim C7, on the code.  [get_drugs] takes the difference the other
    way round (the mapping's identifiers minus the requested ones).
    With a featurizer that cannot represent [d1], the requested
    identifiers minus the mapping's are [{d1}], and no warning is
    issued; with a cache file that also holds [d9], every requested
    identifier is in the mapping, and the warning names [d9]. *)
Theorem get_drugs_unreachable_not_reported :
  (∃ drug_dict w,
     get_drugs manager no_world = Ok (drug_dict, w) ∧
     list_to_set (C := gset string) drugs.*1 ∖ dom drug_dict = {["d1"]} ∧
     warnings w = []) ∧
  (∃ drug_dict w,
     get_drugs manager stale_world = Ok (drug_dict, w) ∧
     list_to_set (C := gset string) drugs.*1 ∖ dom drug_dict = ∅ ∧
     warnings w = [RuntimeWarning_not_featurized {["d9"]}]).
Proof.
  split; eexists _, _; (split; [vm_compute; reflexivity|]);
    split; vm_compute; reflexivity.
Qed.

End instances.


(** * Further properties of the code *)

(** ** Indexing arrays *)

Section index_facts.
Context {A : Type}.
Implicit Types (l : list A).

Lemma index_out_of_range l (i : Z) :
  (i < - Z.of_nat (length l) ∨ Z.of_nat (length l) <= i)%Z ->
  np.index l i = Raise IndexError.
Proof.
  intros Hi. unfold np.index.
  destruct (Z.ltb_spec i 0).
  - destruct (Z.ltb_spec (i + Z.of_nat (length l)) 0); [done|lia].
  - destruct (Z.ltb_spec i 0); [lia|].
    rewrite (proj2 (lookup_ge_None l (Z.to_nat i))); [done|lia].
Qed.

Lemma index_negative l (i : Z) :
  (- Z.of_nat (length l) <= i < 0)%Z ->
  np.index l i = np.index l (i + Z.of_nat (length l)).
Proof.
  intros Hi. unfold np.index.
  destruct (Z.ltb_spec i 0); [|lia].
  destruct (Z.ltb_spec (i + Z.of_nat (length l)) 0); [lia|].
  by destruct (Z.ltb_spec (i + Z.of_nat (length l)) 0); [lia|].
Qed.

End index_facts.

(** ** More on [Splitter] *)

Section Splitter_more.
Context {Row Val : Type} `{EqDecision Val}.
Context {G : Type} `{!Generator (pyseed Val) G}.

Implicit Types (s : Splitter Row Val) (df : DataFrame Row).
Implicit Types (e : element Val) (idx : Z) (p : nat * Row).
Implicit Types (folds : list (list (element Val))) (val : list nat).
Implicit Types (pc : option (Row -> Val)) (sd : pyseed Val).
Implicit Types (excl : list (element Val)).

(** Property X1.  With a seed that [default_rng] accepts and a fold count
    [k <= 0], [get_partitions] raises the [ValueError] of
    [np.array_split], and so does [fit], before any fold is drawn: the
    splitter is never marked as partitioned or fitted.  (On a seed that
    [default_rng] refuses, its error comes first.) *)
Theorem fit_nonpositive_fold_count s (rng : G) shuffle fuel :
  default_rng (seed s) = Ok rng ->
  (k s <= 0)%Z ->
  get_partitions shuffle s
  = Raise (ValueError "number sections must be larger than 0.") ∧
  fit fuel shuffle s
  = Raise (ValueError "number sections must be larger than 0.").
Proof.
  intros Hrng Hk.
  pose proof (get_partitions_nonpositive shuffle s rng Hrng Hk) as Hget.
  split; [done|]. unfold fit. by rewrite Hget.
Qed.

(** Property X2.  When there are more folds than elements,
    [get_partitions] still succeeds on a seed that [default_rng] accepts:
    each of the first [n] folds holds one element and the other [k - n]
    folds are empty. *)
Theorem get_partitions_more_folds_than_elements shuffle s (rng : G) :
  default_rng (seed s) = Ok rng ->
  (0 < k s)%Z ->
  length (elements s) < Z.to_nat (k s) ->
  ∃ folds,
    get_partitions shuffle s = Ok (with_partitions s folds) ∧
    length folds = Z.to_nat (k s) ∧
    ∀ f a, folds !! f = Some a ->
           length a = if f <? length (elements s) then 1 else 0.
Proof.
  intros Hrng Hk Hn.
  destruct (get_partitions_spec shuffle s rng Hrng Hk)
    as (folds & Hget & Hlen & _ & Hsz).
  exists folds. split; [done|]. split; [done|].
  intros f a Hf.
  pose proof (lookup_lt_Some _ _ _ Hf) as Hlt. rewrite Hlen in Hlt.
  specialize (Hsz f Hlt). rewrite Hf in Hsz. simpl in Hsz.
  injection Hsz as ->.
  by rewrite Nat.div_small, Nat.mod_small by done.
Qed.

(** Property X3.  Without shuffling, on a seed that [default_rng]
    accepts (the generator is made before the shuffle setting is looked
    at), the folds are consecutive pieces of the elements in their
    original order: put end to end they give back the list of elements. *)
Theorem get_partitions_keeps_order s (rng : G) :
  default_rng (seed s) = Ok rng ->
  (0 < k s)%Z ->
  ∃ folds,
    get_partitions false s = Ok (with_partitions s folds) ∧
    concat folds = elements s.
Proof.
  intros Hrng Hk. unfold get_partitions. rewrite Hrng. simpl.
  destruct (array_split_spec (elements s) (k s) Hk)
    as (folds & -> & _ & Hcat & _).
  by exists folds.
Qed.

Lemma get_partitions_set_exclude shuffle s excl :
  get_partitions shuffle (set_exclude_from_test excl s)
  = (s' ← get_partitions shuffle s; Ok (set_exclude_from_test excl s')).
Proof.
  unfold get_partitions. simpl.
  destruct (default_rng (seed s)) as [rng| |]; simpl; [|done..].
  destruct (if shuffle then _ else _) as [els| |]; simpl; [|done..].
  by destruct (np.array_split els (k s)).
Qed.

Lemma get_folds_set_exclude fuel s excl :
  get_folds fuel (set_exclude_from_test excl s)
  = (s' ← get_folds fuel s; Ok (set_exclude_from_test excl s')).
Proof.
  unfold get_folds. simpl.
  destruct (partitioned s); simpl; [|done].
  destruct (default_rng (seed s)) as [rng| |]; simpl; [|done..].
  by destruct (draw_until_valid _ _ _ _).
Qed.

(** Property X4.  The exclusion list plays no part in fitting: fitting
    with another list gives the same folds and roles, the list apart. *)
Theorem fit_ignores_exclusion df (n_folds : Z) pc sd excl excl' fuel shuffle s :
  fit fuel shuffle (Splitter_init df n_folds pc sd excl) = Ok s ->
  fit fuel shuffle (Splitter_init df n_folds pc sd excl')
  = Ok (set_exclude_from_test excl' s).
Proof.
  intros Hs.
  change (Splitter_init df n_folds pc sd excl')
    with (set_exclude_from_test excl' (Splitter_init df n_folds pc sd excl)).
  unfold fit in *. rewrite get_partitions_set_exclude.
  destruct (get_partitions shuffle _) as [s1| |]; simpl in *; [|done..].
  rewrite get_folds_set_exclude. by rewrite Hs.
Qed.

(** Property X5.  Fitting again changes nothing: [fit] on a splitter it
    has fitted returns the same splitter. *)
Theorem fit_again df (n_folds : Z) pc sd excl fuel shuffle s :
  fit fuel shuffle (Splitter_init df n_folds pc sd excl) = Ok s ->
  fit fuel shuffle s = Ok s.
Proof.
  intros Hs. pose proof Hs as Hs0.
  destruct (fit_fitted_state _ _ _ _ _ _ _ _ Hs) as (folds & val & _ & ->).
  unfold fit in *.
  destruct (get_partitions shuffle (Splitter_init _ _ _ _ _))
    as [s1| |] eqn:Hs1; simpl in Hs0; [|done..].
  unfold get_partitions in *. simpl in *.
  destruct (default_rng sd) as [rng| |] eqn:Hrng; simpl in *; [|done..].
  destruct (if shuffle then _ else _) as [els| |]; simpl in *; [|done..].
  destruct (np.array_split els n_folds) as [folds1| |]; simpl in *; [|done..].
  injection Hs1 as <-.
  unfold get_folds in *. simpl in *. rewrite Hrng in *. simpl in *.
  destruct (draw_until_valid _ _ _ _) as [val1| |]; simpl in *; [|done..].
  unfold with_folds, with_partitions in *. simpl in *.
  by simplify_eq.
Qed.

(** Property X6.  A run outside [-k, k) is refused: indexing a fitted
    splitter by it raises [IndexError]. *)
Theorem getitem_out_of_range df (n_folds : Z) pc sd excl fuel shuffle s idx :
  fit fuel shuffle (Splitter_init df n_folds pc sd excl) = Ok s ->
  (idx < - n_folds ∨ n_folds <= idx)%Z ->
  getitem s idx = Raise IndexError.
Proof.
  intros Hs Hidx.
  destruct (fit_fitted_state _ _ _ _ _ _ _ _ Hs) as (folds & val & Hfit & _).
  destruct (fit_fields _ _ _ _ _ _ _ _ Hs) as (Hk & _).
  pose proof (fs_k _ _ _ Hfit) as Hpos.
  assert (val_fold_of s idx = Raise IndexError) as Hvf.
  { unfold val_fold_of. rewrite (fs_val _ _ _ Hfit). simpl.
    apply index_out_of_range.
    rewrite (fs_val_perm _ _ _ Hfit), length_seq. lia. }
  unfold getitem. rewrite (fs_fitted _ _ _ Hfit). simpl.
  unfold np.range.
  destruct (Z.to_nat (k s)) as [|n] eqn:Hn; [lia|].
  simpl. by rewrite Hvf.
Qed.

(** Property X7.  Negative runs count from the end: on a fitted splitter
    run [idx] in [-k, 0) is run [idx + k]. *)
Theorem getitem_negative_index df (n_folds : Z) pc sd excl fuel shuffle s idx :
  fit fuel shuffle (Splitter_init df n_folds pc sd excl) = Ok s ->
  (- n_folds <= idx < 0)%Z ->
  getitem s idx = getitem s (idx + n_folds).
Proof.
  intros Hs Hidx.
  destruct (fit_fitted_state _ _ _ _ _ _ _ _ Hs) as (folds & val & Hfit & _).
  destruct (fit_fields _ _ _ _ _ _ _ _ Hs) as (Hk & _).
  assert (val_fold_of s idx = val_fold_of s (idx + n_folds)) as Hvf.
  { unfold val_fold_of. rewrite (fs_val _ _ _ Hfit). simpl.
    assert (Z.of_nat (length val) = n_folds) as Hlen
      by (rewrite (fs_val_perm _ _ _ Hfit), length_seq; lia).
    rewrite <- Hlen. apply index_negative. lia. }
  assert (test_fold_of s idx = test_fold_of s (idx + n_folds)) as Htf.
  { unfold test_fold_of. rewrite (fs_test _ _ _ Hfit). simpl.
    assert (Z.of_nat (length (seq 0 (Z.to_nat (k s)))) = n_folds) as Hlen
      by (rewrite length_seq; lia).
    rewrite <- Hlen. apply index_negative. lia. }
  unfold getitem. by rewrite Hvf, Htf.
Qed.

(** Property X8.  A splitter fitted with two folds cannot be indexed:
    one fold is the validation fold, the other the test fold, no fold is
    left for training, and [np.concatenate] raises [ValueError] on the
    empty list. *)
Theorem getitem_two_folds_raises df pc sd excl fuel shuffle s idx :
  fit fuel shuffle (Splitter_init df 2 pc sd excl) = Ok s ->
  (0 <= idx < 2)%Z ->
  getitem s idx
  = Raise (ValueError "need at least one array to concatenate").
Proof.
  intros Hs Hidx.
  destruct (fit_fitted_state _ _ _ _ _ _ _ _ Hs) as (folds & val & Hfit & _).
  destruct (fit_fields _ _ _ _ _ _ _ _ Hs) as (Hk & _).
  destruct (getitem_fitted s folds val idx Hfit ltac:(lia))
    as (v & av & ar & Hv & Hvk & Hvr & _ & _ & Hget).
  rewrite <- (set_exclude_from_test_same s), Hget, Hk.
  assert (filter (λ i, is_train_fold v (Z.to_nat idx) i = true)
            (seq 0 (Z.to_nat 2)) = []) as ->; [|done].
  rewrite Hk in Hvk.
  assert (Z.to_nat idx = 0 ∨ Z.to_nat idx = 1) as [Hr|Hr] by lia;
    rewrite Hr in *; destruct v as [|[|v]]; try lia; done.
Qed.

(** Property X9.  [fit] returns only for two folds or more. *)
Theorem fit_needs_two_folds df (n_folds : Z) pc sd excl fuel shuffle s :
  fit fuel shuffle (Splitter_init df n_folds pc sd excl) = Ok s ->
  (2 <= n_folds)%Z.
Proof.
  intros Hs.
  assert (0 < n_folds)%Z as Hk.
  { unfold fit in Hs.
    destruct (get_partitions shuffle _) as [s1| |] eqn:Hs1; [|done..].
    by apply get_partitions_Ok_positive in Hs1. }
  destruct (decide (n_folds = 1%Z)) as [->|Hne]; [|lia].
  by apply fit_one_fold_not_Ok in Hs.
Qed.

Lemma imap_rows (f : nat -> nat) df :
  (imap (λ i p, (f i, p.2)) df).*2 = df.*2.
Proof.
  revert f. induction df as [|p df IH]; intros f; [done|].
  simpl. f_equal. apply (IH (f ∘ S)).
Qed.

Lemma reset_index_rows df : (reset_index df).*2 = df.*2.
Proof. apply (imap_rows id). Qed.

(** Property X10.  [Splitter.__init__] discards the labels of the table
    it is given: its rows are kept in order and labelled 0, 1, 2, ...
    The elements are pairwise different; without a partition column they
    are the new labels, with one they are the values that the column
    takes. *)
Theorem Splitter_init_elements df (n_folds : Z) pc sd excl :
  (data (Splitter_init df n_folds pc sd excl)).*1 = seq 0 (length df) ∧
  (data (Splitter_init df n_folds pc sd excl)).*2 = df.*2 ∧
  NoDup (elements (Splitter_init df n_folds pc sd excl)) ∧
  match pc with
  | None =>
      elements (Splitter_init df n_folds pc sd excl)
      = Idx <$> seq 0 (length df)
  | Some col =>
      ∀ e, e ∈ elements (Splitter_init df n_folds pc sd excl)
           ↔ ∃ p, p ∈ df ∧ e = Grp (col p.2)
  end.
Proof.
  split; [apply reset_index_labels|]. split; [apply reset_index_rows|].
  split; [apply Splitter_init_NoDup|].
  destruct pc as [col|]; simpl; [|by rewrite reset_index_labels].
  intros e. rewrite list_elem_of_fmap. split.
  - intros (v & -> & Hv). apply (proj1 (elem_of_unique _ _)) in Hv.
    apply list_elem_of_fmap in Hv as ([i r] & -> & Hp).
    assert (r ∈ (reset_index df).*2) as Hr
      by (apply list_elem_of_fmap; by exists (i, r)).
    rewrite reset_index_rows in Hr.
    apply list_elem_of_fmap in Hr as ([j r'] & -> & Hq). by exists (j, r').
  - intros ([i r] & Hp & ->). exists (col r). split; [done|].
    apply elem_of_unique.
    assert (r ∈ (reset_index df).*2) as Hr
      by (rewrite reset_index_rows; apply list_elem_of_fmap; by exists (i, r)).
    apply list_elem_of_fmap in Hr as ([j r'] & -> & Hq).
    apply list_elem_of_fmap. by exists (j, r').
Qed.

Lemma loc_labels df (idxs : list (element Val)) sub :
  loc df idxs = Ok sub -> Idx <$> sub.*1 = idxs.
Proof.
  unfold loc.
  revert sub. induction idxs as [|e idxs IH]; intros sub Hsub.
  - by injection Hsub as <-.
  - apply mapM_cons_Ok in Hsub as (p & ps & Hp & Hps & ->).
    rewrite !fmap_cons. f_equal; [|by apply IH].
    destruct e as [i|v]; [|done]. unfold loc_label in Hp.
    destruct (list_find _ df) as [[j q]|] eqn:Hfind; [|done].
    injection Hp as ->. by apply list_find_Some in Hfind as (_ & -> & _).
Qed.

(** Property X11.  Without a partition column the frames follow the
    folds: the validation frame has one row for each element of the
    validation fold, in the order of the fold; the test frame likewise for
    the test fold without the excluded elements; the train frame for the
    other folds, taken by increasing fold number. *)
Theorem getitem_rows_in_fold_order df (n_folds : Z) sd excl fuel shuffle s idx
    tr va te :
  fit fuel shuffle (Splitter_init df n_folds None sd excl) = Ok s ->
  (0 <= idx < n_folds)%Z ->
  getitem s idx = Ok (tr, va, te) ->
  ∃ folds val v val_fold test_fold,
    splits s = Some folds ∧ val_folds s = Some val ∧
    val !! Z.to_nat idx = Some v ∧
    folds !! v = Some val_fold ∧ folds !! Z.to_nat idx = Some test_fold ∧
    Idx <$> va.*1 = val_fold ∧
    Idx <$> te.*1 = filter (λ el, el ∉ excl) test_fold ∧
    Idx <$> tr.*1
    = concat ((λ f, default [] (folds !! f))
                <$> filter (λ i, is_train_fold v (Z.to_nat idx) i = true)
                      (seq 0 (Z.to_nat n_folds))).
Proof.
  intros Hs Hidx Hget.
  destruct (fit_fitted_state _ _ _ _ _ _ _ _ Hs) as (folds & val & Hfit & _).
  destruct (fit_fields _ _ _ _ _ _ _ _ Hs) as (Hk & Hpc & Hexcl & _).
  destruct (getitem_fitted s folds val idx Hfit ltac:(lia))
    as (v & av & ar & Hv & Hvk & Hvr & Hav & Har & Heq).
  exists folds, val, v, av, ar.
  split; [apply Hfit|]. split; [apply Hfit|]. repeat (split; [done|]).
  rewrite <- (set_exclude_from_test_same s), Heq, Hk, Hexcl in Hget.
  unfold select in Hget. rewrite Hpc in Hget.
  destruct (np.concatenate _) as [training_idx| |] eqn:Hcat;
    simpl in Hget; [|done..].
  apply concatenate_Ok in Hcat as ->.
  destruct (loc (data s) (concat _)) as [tr'| |] eqn:Htr;
    simpl in Hget; [|done..].
  destruct (loc (data s) av) as [va'| |] eqn:Hva; simpl in Hget; [|done..].
  destruct (loc (data s) (filter _ ar)) as [te'| |] eqn:Hte;
    simpl in Hget; [|done..].
  injection Hget as <- <- <-.
  by rewrite (loc_labels _ _ _ Htr), (loc_labels _ _ _ Hva),
    (loc_labels _ _ _ Hte).
Qed.

(** Property X12.  With a partition column the three frames are taken
    out of the table in table order: each is a sublist of the rows of the
    splitter, labels included. *)
Theorem getitem_groups_in_table_order df (n_folds : Z) (col : Row -> Val) sd
    excl fuel shuffle s idx tr va te :
  fit fuel shuffle (Splitter_init df n_folds (Some col) sd excl) = Ok s ->
  (0 <= idx < n_folds)%Z ->
  getitem s idx = Ok (tr, va, te) ->
  tr `sublist_of` data s ∧ va `sublist_of` data s ∧ te `sublist_of` data s.
Proof.
  intros Hs Hidx Hget.
  destruct (fit_fitted_state _ _ _ _ _ _ _ _ Hs) as (folds & val & Hfit & _).
  destruct (fit_fields _ _ _ _ _ _ _ _ Hs) as (Hk & Hpc & Hexcl & _).
  destruct (getitem_fitted s folds val idx Hfit ltac:(lia))
    as (v & av & ar & Hv & Hvk & Hvr & Hav & Har & Heq).
  rewrite <- (set_exclude_from_test_same s), Heq in Hget.
  unfold select in Hget. rewrite Hpc in Hget.
  destruct (np.concatenate _) as [training_idx| |]; simpl in Hget; [|done..].
  injection Hget as <- <- <-.
  repeat split; apply sublist_filter.
Qed.

End Splitter_more.

(** ** More on [DatasetManager] *)

Section DatasetManager_more.
Context {Row Val Cells DrugId Repr T G : Type}.
Context `{EqDecision Val} `{Countable DrugId}.
Context `{!Generator (pyseed Val) G}.
Context `{!TargetPipeline T (DataFrame Row)}.

Implicit Types (self : DatasetManager Row Val Cells DrugId Repr T).
Implicit Types (w : World DrugId Repr).
Implicit Types (pp : PreprocessingPipeline Row Cells DrugId).
Implicit Types (feat : DrugFeaturizer DrugId Repr).

(** Property X13.  A manager cannot be built with fewer than two folds:
    once the table is there, and when [default_rng] accepts the list
    [exclude_from_test] that the constructor hands on as seed, [k <= 0]
    makes the constructor raise the [ValueError] of [np.array_split], and
    [k = 1] makes it run forever inside [get_folds].  (When [default_rng]
    refuses the list, its error comes first.) *)
Theorem DatasetManager_init_few_folds fuel pp (tp : T) feat (n_folds : Z)
    (pc : option (Row -> Val)) (E : list (element Val)) df (rng : G) :
  preprocess pp = Ok df ->
  default_rng (SeedSeq E) = Ok rng ->
  ((n_folds <= 0)%Z ->
   DatasetManager_init fuel pp tp feat n_folds pc E
   = Raise (ValueError "number sections must be larger than 0.")) ∧
  (n_folds = 1%Z ->
   DatasetManager_init fuel pp tp feat n_folds pc E = OutOfFuel).
Proof.
  intros Hdf Hrng. unfold DatasetManager_init. rewrite Hdf. simpl.
  split; intros Hk.
  - unfold fit. by rewrite (get_partitions_nonpositive _ _ rng).
  - by rewrite (fit_one_fold _ rng).
Qed.

(** Property X14.  A constructed manager keeps what it was given, holds
    the table that [preprocess] returned, and owns a splitter that is
    partitioned and fitted on that table labelled anew from 0; the target
    processor is stored as it came, not fitted by the constructor. *)
Theorem DatasetManager_init_state fuel pp (tp : T) feat (n_folds : Z)
    (pc : option (Row -> Val)) (E : list (element Val)) self :
  DatasetManager_init fuel pp tp feat n_folds pc E = Ok self ->
  ppl self = pp ∧ drug_featurizer self = feat ∧ target_processor self = tp ∧
  preprocess pp = Ok (get_data self) ∧
  data (splitter self) = reset_index (get_data self) ∧
  partitioned (splitter self) = true ∧
  fitted (splitter self) = Some true ∧
  k (splitter self) = n_folds ∧
  partition_column (splitter self) = pc.
Proof.
  unfold DatasetManager_init.
  destruct (preprocess pp) as [df| |]; simpl; [|done..].
  destruct (fit fuel true _) as [s| |] eqn:Hs; simpl; [|done..].
  intros [= <-]. simpl.
  destruct (fit_fitted_state _ _ _ _ _ _ _ _ Hs) as (folds & val & _ & ->).
  done.
Qed.

(** Property X15.  On a cache hit [get_drugs] returns the stored mapping
    as it is and leaves every file alone; the featurizer is not called,
    so this holds whatever the featurizer would return or raise. *)
Theorem get_drugs_cache_hit self w smiles featurizer_s stored :
  ppl_get_drugs (ppl self) = Ok smiles ->
  featurizer_str (drug_featurizer self) = Ok featurizer_s ->
  files w !! path_cache_of (ppl_str (ppl self)) featurizer_s = Some stored ->
  ∃ w', get_drugs self w = Ok (stored, w') ∧ files w' = files w.
Proof.
  intros Hsmiles Hstr Hfile. unfold get_drugs.
  rewrite Hsmiles. simpl. rewrite Hstr. simpl. rewrite Hfile. simpl.
  eexists. split; [done|]. by case_decide.
Qed.

(** Property X16.  On a cache miss the mapping returned is what the
    featurizer gives for all the SMILES and identifiers of the drugs
    table, and it is stored under the cache path; the other files are
    left alone. *)
Theorem get_drugs_cache_miss self w smiles featurizer_s drug_dict w' :
  ppl_get_drugs (ppl self) = Ok smiles ->
  featurizer_str (drug_featurizer self) = Ok featurizer_s ->
  files w !! path_cache_of (ppl_str (ppl self)) featurizer_s = None ->
  get_drugs self w = Ok (drug_dict, w') ->
  featurize (drug_featurizer self) smiles.*2 smiles.*1 = Ok drug_dict ∧
  files w'
  = <[path_cache_of (ppl_str (ppl self)) featurizer_s := drug_dict]> (files w).
Proof.
  intros Hsmiles Hstr Hfile. unfold get_drugs.
  rewrite Hsmiles. simpl. rewrite Hstr. simpl. rewrite Hfile. simpl.
  destruct (featurize _ _ _) as [d| |]; simpl; [|done..].
  intros [= <- <-]. split; [done|]. by case_decide.
Qed.

(** Property X17.  A second call of [get_drugs] returns the mapping of
    the first and writes nothing: after any successful call the cache
    file exists and is trusted. *)
Theorem get_drugs_twice self w drug_dict w1 :
  get_drugs self w = Ok (drug_dict, w1) ->
  ∃ w2, get_drugs self w1 = Ok (drug_dict, w2) ∧ files w2 = files w1.
Proof.
  intros Hget. pose proof Hget as Hfirst. unfold get_drugs in Hfirst.
  destruct (ppl_get_drugs (ppl self)) as [smiles| |] eqn:Hsmiles;
    simpl in Hfirst; [|done..].
  destruct (featurizer_str (drug_featurizer self)) as [fs| |] eqn:Hstr;
    simpl in Hfirst; [|done..].
  assert (files w1 !! path_cache_of (ppl_str (ppl self)) fs = Some drug_dict)
    as Hfile.
  { destruct (files w !! _) as [stored|] eqn:Hw; simpl in Hfirst.
    - injection Hfirst as <- <-. by case_decide.
    - destruct (featurize _ _ _) as [d| |]; simpl in Hfirst; [|done..].
      injection Hfirst as <- <-.
      case_decide; simpl; apply lookup_insert_eq. }
  unfold get_drugs. rewrite Hsmiles. simpl. rewrite Hstr. simpl.
  rewrite Hfile. simpl. eexists. split; [done|]. by case_decide.
Qed.

(** Property X18.  [get_drugs] issues no warning exactly when every
    identifier of the returned mapping is an identifier of the drugs
    table; identifiers of the table that the mapping lacks never cause
    one. *)
Theorem get_drugs_silent_iff self w smiles drug_dict w' :
  ppl_get_drugs (ppl self) = Ok smiles ->
  get_drugs self w = Ok (drug_dict, w') ->
  warnings w' = warnings w ↔ ∀ id, id ∈ dom drug_dict -> id ∈ smiles.*1.
Proof.
  intros Hsmiles Hget.
  destruct (get_drugs_warnings self w drug_dict w' Hget)
    as (smiles' & Hsmiles' & ->).
  rewrite Hsmiles in Hsmiles'. injection Hsmiles' as <-.
  case_decide as Hsize.
  - split.
    + intros Heq. apply (f_equal length) in Heq.
      rewrite length_app in Heq. simpl in Heq. lia.
    + intros Hsub. apply size_pos_elem_of in Hsize as (id & Hid).
      apply elem_of_difference in Hid as [Hdom Hnot].
      destruct Hnot. apply elem_of_list_to_set. by apply Hsub.
  - split; [|by rewrite app_nil_r].
    intros _ id Hid. destruct (decide (id ∈ smiles.*1)) as [|Hnot]; [done|].
    assert (size (dom drug_dict ∖ list_to_set (C := gset DrugId) smiles.*1)
            = 0) as Hempty%size_empty_inv by lia.
    exfalso. apply (not_elem_of_empty (C := gset DrugId) id).
    rewrite <- Hempty. apply elem_of_difference. split; [done|].
    by rewrite elem_of_list_to_set.
Qed.

End DatasetManager_more.

(** ** More on the scaling pipelines *)

Section scalers_more.
Context {Row Y Scaler : Type} `{!Scaling Y Scaler}.
Context (column_Y : Row -> Y) (assign_Y : Row -> Y -> Row).

(** [assign] keeps the rows and their labels and replaces [Y] only. *)
Lemma assign_rows (x x' : DataFrame Row) (Y_t : list Y) :
  assign assign_Y x Y_t = Ok x' ->
  Forall2 (λ p p', p'.1 = p.1 ∧ ∃ y, p'.2 = assign_Y p.2 y) x x'.
Proof.
  unfold assign. case_decide as Hlen; [|done]. intros [= <-].
  revert Y_t Hlen. induction x as [|p x IH]; intros [|y Y_t] Hlen;
    simpl in *; try done; constructor; [by eauto|]. apply IH. lia.
Qed.

(** Property X19.  Once [fit] has returned, [transform] of a
    [LogMinMaxScaling] is its [__call__], whatever [fitted] was before;
    and a frame it returns has the rows of its argument, in order and
    with their labels, with only the column Y replaced. *)
Theorem LogMinMaxScaling_fit_then_transform
    (self processor : LogMinMaxScaling) (x y y' : DataFrame Row) :
  LogMinMaxScaling_fit column_Y self x = Ok processor ->
  transform (TargetPipeline0 := LogMinMaxScaling_methods column_Y assign_Y)
    processor y
  = LogMinMaxScaling_call column_Y assign_Y processor y ∧
  (transform (TargetPipeline0 := LogMinMaxScaling_methods column_Y assign_Y)
     processor y = Ok y' ->
   Forall2 (λ p p', p'.1 = p.1 ∧ ∃ v, p'.2 = assign_Y p.2 v) y y').
Proof.
  unfold LogMinMaxScaling_fit.
  destruct (MinMaxScaler_fit _ _) as [minmax| |]; simpl; [|done..].
  intros [= <-]. split; [done|].
  unfold transform. simpl. unfold LogMinMaxScaling_call. simpl.
  destruct (MinMaxScaler_transform _ _) as [Y_t| |]; simpl; [|done..].
  apply assign_rows.
Qed.

(** Property X20.  The same for [MinMaxScaling]. *)
Theorem MinMaxScaling_fit_then_transform
    (self processor : MinMaxScaling) (x y y' : DataFrame Row) :
  MinMaxScaling_fit column_Y self x = Ok processor ->
  transform (TargetPipeline0 := MinMaxScaling_methods column_Y assign_Y)
    processor y
  = MinMaxScaling_call column_Y assign_Y processor y ∧
  (transform (TargetPipeline0 := MinMaxScaling_methods column_Y assign_Y)
     processor y = Ok y' ->
   Forall2 (λ p p', p'.1 = p.1 ∧ ∃ v, p'.2 = assign_Y p.2 v) y y').
Proof.
  unfold MinMaxScaling_fit.
  destruct (MinMaxScaler_fit _ _) as [minmax| |]; simpl; [|done..].
  intros [= <-]. split; [done|].
  unfold transform. simpl. unfold MinMaxScaling_call. simpl.
  destruct (MinMaxScaler_transform _ _) as [Y_t| |]; simpl; [|done..].
  apply assign_rows.
Qed.

End scalers_more.

(** ** The further properties on the small instance *)

Section more_instances.
Import demo.

Lemma fit_nonpositive_fold_count_witness :
  default_rng (seed no_fold) = Ok 3558 ∧ (k no_fold <= 0)%Z ∧
  fit 5 true no_fold
  = Raise (ValueError "number sections must be larger than 0.").
Proof.
  assert (default_rng (seed no_fold) = Ok 3558) as Hrng
    by (vm_compute; reflexivity).
  assert (k no_fold <= 0)%Z as Hk by (simpl; lia).
  split; [done|]. split; [done|].
  by destruct (fit_nonpositive_fold_count no_fold 3558 true 5 Hrng Hk)
    as [_ Hfit].
Defined.

Lemma get_partitions_more_folds_than_elements_witness :
  default_rng (seed ten_folds) = Ok 3558 ∧
  (0 < k ten_folds)%Z ∧
  length (elements ten_folds) < Z.to_nat (k ten_folds) ∧
  ∃ folds,
    get_partitions true ten_folds = Ok (with_partitions ten_folds folds) ∧
    length folds = 10.
Proof.
  assert (0 < k ten_folds)%Z as Hk by (simpl; lia).
  assert (length (elements ten_folds) < Z.to_nat (k ten_folds)) as Hn
    by (vm_compute; lia).
  assert (default_rng (seed ten_folds) = Ok 3558) as Hrng
    by (vm_compute; reflexivity).
  split; [done|]. split; [done|]. split; [done|].
  destruct (get_partitions_more_folds_than_elements true ten_folds 3558
              Hrng Hk Hn) as (folds & Hget & Hlen & _).
  exists folds. by split.
Defined.

Lemma get_partitions_keeps_order_witness :
  default_rng (seed by_cell) = Ok 3558 ∧ (0 < k by_cell)%Z ∧
  ∃ folds,
    get_partitions false by_cell = Ok (with_partitions by_cell folds) ∧
    concat folds = [Grp "c0"; Grp "c1"; Grp "c2"; Grp "c3"].
Proof.
  assert (default_rng (seed by_cell) = Ok 3558) as Hrng
    by (vm_compute; reflexivity).
  assert (0 < k by_cell)%Z as Hk by (simpl; lia).
  split; [done|]. split; [done|].
  exact (get_partitions_keeps_order by_cell 3558 Hrng Hk).
Defined.

Lemma fit_ignores_exclusion_witness :
  fit 5 true by_row = Ok by_row_fitted ∧
  fit 5 true (Splitter_init table 3 None (SeedInt 3558) [Idx 5])
  = Ok (set_exclude_from_test [Idx 5] by_row_fitted).
Proof.
  assert (fit 5 true by_row = Ok by_row_fitted) as Hfit
    by (vm_compute; reflexivity).
  split; [done|].
  exact (fit_ignores_exclusion table 3 None (SeedInt 3558) [Idx 2] [Idx 5]
           5 true by_row_fitted Hfit).
Defined.

Lemma fit_again_witness :
  fit 5 true by_row = Ok by_row_fitted ∧
  fit 5 true by_row_fitted = Ok by_row_fitted.
Proof.
  assert (fit 5 true by_row = Ok by_row_fitted) as Hfit
    by (vm_compute; reflexivity).
  split; [done|].
  exact (fit_again table 3 None (SeedInt 3558) [Idx 2] 5 true by_row_fitted
           Hfit).
Defined.

Lemma getitem_out_of_range_witness :
  fit 5 true by_row = Ok by_row_fitted ∧ (3 < - 3 ∨ 3 <= 3)%Z ∧
  getitem by_row_fitted 3 = Raise IndexError.
Proof.
  assert (fit 5 true by_row = Ok by_row_fitted) as Hfit
    by (vm_compute; reflexivity).
  assert (3 < - 3 ∨ 3 <= 3)%Z as Hidx by lia.
  split; [done|]. split; [done|].
  exact (getitem_out_of_range table 3 None (SeedInt 3558) [Idx 2] 5 true
           by_row_fitted 3 Hfit Hidx).
Defined.

Lemma getitem_negative_index_witness :
  fit 5 true by_row = Ok by_row_fitted ∧ (- 3 <= - 1 < 0)%Z ∧
  getitem by_row_fitted (- 1) = getitem by_row_fitted (- 1 + 3).
Proof.
  assert (fit 5 true by_row = Ok by_row_fitted) as Hfit
    by (vm_compute; reflexivity).
  assert (- 3 <= - 1 < 0)%Z as Hidx by lia.
  split; [done|]. split; [done|].
  exact (getitem_negative_index table 3 None (SeedInt 3558) [Idx 2] 5 true
           by_row_fitted (- 1) Hfit Hidx).
Defined.

Lemma getitem_two_folds_raises_witness :
  fit 5 true two_folds = Ok two_folds_fitted ∧ (0 <= 1 < 2)%Z ∧
  getitem two_folds_fitted 1
  = Raise (ValueError "need at least one array to concatenate").
Proof.
  assert (fit 5 true two_folds = Ok two_folds_fitted) as Hfit
    by (vm_compute; reflexivity).
  assert (0 <= 1 < 2)%Z as Hidx by lia.
  split; [done|]. split; [done|].
  exact (getitem_two_folds_raises table None (SeedInt 3558) [] 5 true
           two_folds_fitted 1 Hfit Hidx).
Defined.

Lemma fit_needs_two_folds_witness :
  fit 5 true by_row = Ok by_row_fitted ∧ (2 <= 3)%Z.
Proof.
  assert (fit 5 true by_row = Ok by_row_fitted) as Hfit
    by (vm_compute; reflexivity).
  split; [done|].
  exact (fit_needs_two_folds table 3 None (SeedInt 3558) [Idx 2] 5 true
           by_row_fitted Hfit).
Defined.

Lemma getitem_rows_in_fold_order_witness :
  fit 5 true by_row = Ok by_row_fitted ∧ (0 <= 0 < 3)%Z ∧
  getitem by_row_fitted 0 = Ok by_row_run0 ∧
  ∃ folds val_fold,
    splits by_row_fitted = Some folds ∧ folds !! 1 = Some val_fold ∧
    Idx <$> by_row_run0.1.2.*1 = val_fold.
Proof.
  assert (fit 5 true by_row = Ok by_row_fitted) as Hfit
    by (vm_compute; reflexivity).
  assert (0 <= 0 < 3)%Z as Hidx by lia.
  assert (getitem by_row_fitted 0 = Ok by_row_run0) as Hget
    by (vm_compute; reflexivity).
  split; [done|]. split; [done|]. split; [done|].
  destruct (getitem_rows_in_fold_order table 3 (SeedInt 3558) [Idx 2] 5 true
              by_row_fitted 0 _ _ _ Hfit Hidx Hget)
    as (folds & val & v & val_fold & test_fold
        & Hsplits & Hval & Hv & Hvf & _ & Hva & _).
  exists folds, val_fold. split; [done|]. split; [|done].
  injection Hval as <-. injection Hv as <-. done.
Defined.

Lemma getitem_groups_in_table_order_witness :
  fit 5 true by_cell = Ok by_cell_fitted ∧ (0 <= 1 < 3)%Z ∧
  getitem by_cell_fitted 1 = Ok by_cell_run1 ∧
  by_cell_run1.1.1 `sublist_of` data by_cell_fitted.
Proof.
  assert (fit 5 true by_cell = Ok by_cell_fitted) as Hfit
    by (vm_compute; reflexivity).
  assert (0 <= 1 < 3)%Z as Hidx by lia.
  assert (getitem by_cell_fitted 1 = Ok by_cell_run1) as Hget
    by (vm_compute; reflexivity).
  split; [done|]. split; [done|]. split; [done|].
  by destruct (getitem_groups_in_table_order table 3 CELL_ID (SeedInt 3558)
                 [Grp "c1"] 5 true by_cell_fitted 1 _ _ _ Hfit Hidx Hget)
    as [Htr _].
Defined.

Lemma DatasetManager_init_few_folds_witness :
  preprocess pipeline = Ok table ∧
  default_rng (SeedSeq (Val := string) [Idx 2]) = Ok 1 ∧
  DatasetManager_init (G := nat) (Val := string) 5 pipeline scaler
    partial_featurizer 1 None [Idx 2] = OutOfFuel.
Proof.
  assert (preprocess pipeline = Ok table) as Hdf by reflexivity.
  assert (default_rng (SeedSeq (Val := string) [Idx 2]) = Ok 1) as Hrng
    by (vm_compute; reflexivity).
  split; [done|]. split; [done|].
  destruct (DatasetManager_init_few_folds (Val := string) 5
              pipeline scaler partial_featurizer 1 None [Idx 2] table 1
              Hdf Hrng)
    as [_ Hone].
  by apply Hone.
Defined.

Lemma DatasetManager_init_state_witness :
  DatasetManager_init 5 pipeline scaler partial_featurizer 3 None [Idx 2]
  = Ok manager ∧
  fitted (splitter manager) = Some true ∧
  target_processor manager = scaler.
Proof.
  assert (DatasetManager_init 5 pipeline scaler partial_featurizer 3 None
            [Idx 2] = Ok manager) as Hinit by (vm_compute; reflexivity).
  split; [done|].
  by destruct (DatasetManager_init_state 5 pipeline scaler partial_featurizer
                 3 None [Idx 2] manager Hinit)
    as (_ & _ & Htp & _ & _ & _ & Hfitted & _).
Defined.

Lemma get_drugs_cache_hit_witness :
  ppl_get_drugs (ppl manager) = Ok drugs ∧
  featurizer_str (drug_featurizer manager) = Ok "lengths" ∧
  files stale_world !! path_cache_of (ppl_str (ppl manager)) "lengths"
  = Some {[ "d0" := 3; "d1" := 8; "d9" := 1 ]} ∧
  ∃ w', get_drugs manager stale_world
        = Ok ({[ "d0" := 3; "d1" := 8; "d9" := 1 ]}, w')
        ∧ files w' = files stale_world.
Proof.
  assert (ppl_get_drugs (ppl manager) = Ok drugs) as Hsmiles by reflexivity.
  assert (featurizer_str (drug_featurizer manager) = Ok "lengths") as Hstr
    by reflexivity.
  assert (files stale_world !! path_cache_of (ppl_str (ppl manager)) "lengths"
          = Some {[ "d0" := 3; "d1" := 8; "d9" := 1 ]}) as Hfile
    by (vm_compute; reflexivity).
  split; [done|]. split; [done|]. split; [done|].
  exact (get_drugs_cache_hit manager stale_world drugs "lengths" _
           Hsmiles Hstr Hfile).
Defined.

Lemma get_drugs_cache_miss_witness :
  ppl_get_drugs (ppl manager) = Ok drugs ∧
  featurizer_str (drug_featurizer manager) = Ok "lengths" ∧
  files no_world !! path_cache_of (ppl_str (ppl manager)) "lengths" = None ∧
  get_drugs manager no_world = Ok first_get_drugs ∧
  files first_get_drugs.2
  = <[path_cache_of (ppl_str (ppl manager)) "lengths" := first_get_drugs.1]>
      (files no_world).
Proof.
  assert (ppl_get_drugs (ppl manager) = Ok drugs) as Hsmiles by reflexivity.
  assert (featurizer_str (drug_featurizer manager) = Ok "lengths") as Hstr
    by reflexivity.
  assert (files no_world !! path_cache_of (ppl_str (ppl manager)) "lengths"
          = None) as Hfile by (vm_compute; reflexivity).
  assert (get_drugs manager no_world = Ok first_get_drugs) as Hget
    by (vm_compute; reflexivity).
  split; [done|]. split; [done|]. split; [done|]. split; [done|].
  by destruct (get_drugs_cache_miss manager no_world drugs "lengths"
                 first_get_drugs.1 first_get_drugs.2 Hsmiles Hstr Hfile Hget)
    as [_ Hfiles].
Defined.

Lemma get_drugs_twice_witness :
  get_drugs manager no_world = Ok first_get_drugs ∧
  ∃ w2, get_drugs manager first_get_drugs.2 = Ok (first_get_drugs.1, w2)
        ∧ files w2 = files first_get_drugs.2.
Proof.
  assert (get_drugs manager no_world = Ok first_get_drugs) as Hget
    by (vm_compute; reflexivity).
  split; [done|].
  exact (get_drugs_twice manager no_world first_get_drugs.1 first_get_drugs.2
           Hget).
Defined.

Lemma get_drugs_silent_iff_witness :
  ppl_get_drugs (ppl manager) = Ok drugs ∧
  get_drugs manager no_world = Ok first_get_drugs ∧
  (warnings first_get_drugs.2 = warnings no_world
   ↔ ∀ id, id ∈ dom first_get_drugs.1 -> id ∈ drugs.*1).
Proof.
  assert (ppl_get_drugs (ppl manager) = Ok drugs) as Hsmiles by reflexivity.
  assert (get_drugs manager no_world = Ok first_get_drugs) as Hget
    by (vm_compute; reflexivity).
  split; [done|]. split; [done|].
  exact (get_drugs_silent_iff manager no_world drugs first_get_drugs.1
           first_get_drugs.2 Hsmiles Hget).
Defined.

Lemma LogMinMaxScaling_fit_then_transform_witness :
  LogMinMaxScaling_fit column_Y scaler table = Ok scaler_fitted ∧
  transform scaler_fitted table
  = LogMinMaxScaling_call column_Y assign_Y scaler_fitted table.
Proof.
  assert (LogMinMaxScaling_fit column_Y scaler table = Ok scaler_fitted)
    as Hfit by (vm_compute; reflexivity).
  split; [done|].
  by destruct (LogMinMaxScaling_fit_then_transform column_Y assign_Y scaler
                 scaler_fitted table table table Hfit) as [Hcall _].
Defined.

Lemma MinMaxScaling_fit_then_transform_witness :
  MinMaxScaling_fit column_Y plain_scaler table = Ok plain_scaler_fitted ∧
  transform (TargetPipeline0 := MinMaxScaling_methods column_Y assign_Y)
    plain_scaler_fitted table
  = MinMaxScaling_call column_Y assign_Y plain_scaler_fitted table.
Proof.
  assert (MinMaxScaling_fit column_Y plain_scaler table
          = Ok plain_scaler_fitted) as Hfit by (vm_compute; reflexivity).
  split; [done|].
  by destruct (MinMaxScaling_fit_then_transform column_Y assign_Y plain_scaler
                 plain_scaler_fitted table table table Hfit) as [Hcall _].
Defined.

End more_instances.
